(** * test-build-cache: a shallow embedding of the shell scripts and the
      HTTP demo service, with the properties stated about them.

    The repository has three pieces of executable logic:
    - the measurement script (times five [docker build] runs and prints a
      summary),
    - [scripts/build-scenarios.sh] (a [case] dispatch to build scenarios),
    - the Express service ([src/index.ts], [src/routes.ts], [src/config.ts]).

    The container engine, the system clock and the Node runtime are outside
    the repository; they appear here as oracles: a [World] record for the
    scripts, a [Runtime] record for the service. *)

From Stdlib Require Import ZArith Ascii String DecimalString DecimalPos.
From stdpp Require Import base gmap strings list.

Local Open Scope string_scope.
Local Open Scope Z_scope.
Local Open Scope list_scope.

(** ** Bash under [set -e]: a state monad with early exit *)

Module Sh.

(** What a script does that can be observed from outside, in order. *)
Inductive event : Type :=
| Out (line : string)                                  (* echo / printf *)
| Exec (env : list (string * string)) (argv : list string)
                                                       (* external command *)
| ClockRead (t : Z)                                    (* date +%s *)
| Append (path text : string)                          (* echo ... >> path *)
| Copy (src dst : string)                              (* cp src dst *)
| Move (src dst : string).                             (* mv src dst *)

(** The machine the script runs on.  [docker_status n] is the exit status
    of the [n]-th container-build invocation of the run, [clock n] the
    [n]-th value read from [date +%s]. *)
Record World : Type := {
  buildx : bool;                 (* does [docker buildx version] succeed;
                                    the same throughout a run *)
  docker_status : nat -> Z;
  clock : nat -> Z;
  date_text : string;            (* what [$(date)] expands to *)
  script_name : string           (* [$0] *)
}.

Record state : Type := {
  log : list event;              (* oldest first *)
  fs : gmap string string;       (* path |-> file content *)
  ndocker : nat;                 (* builds invoked so far *)
  nclock : nat                   (* timestamps read so far *)
}.

Inductive outcome (A : Type) : Type :=
| Done (a : A)
| Exited (status : Z).
Arguments Done {A} a.
Arguments Exited {A} status.

Definition sh (A : Type) : Type := state -> outcome A * state.

Definition ret {A} (a : A) : sh A := fun s => (Done a, s).

Definition bind {A B} (m : sh A) (k : A -> sh B) : sh B :=
  fun s => match m s with
           | (Done a, s') => k a s'
           | (Exited n, s') => (Exited n, s')
           end.

#[global] Instance sh_ret : MRet sh := @ret.
#[global] Instance sh_bind : MBind sh := fun A B k m => bind m k.

(** [exit n] *)
Definition exit {A} (n : Z) : sh A := fun s => (Exited n, s).

Definition emit (e : event) : sh unit :=
  fun s => (Done tt, {| log := log s ++ [e]; fs := fs s;
                        ndocker := ndocker s; nclock := nclock s |}).

(** [echo text] and [echo -e text] (escapes are written already expanded). *)
Definition echo (line : string) : sh unit := emit (Out line).

(** A simple command under [set -e]: a non-zero status ends the script
    with that status; otherwise the status (that is, [$?]) is handed on. *)
Definition errexit (c : sh Z) : sh Z :=
  st ← c; if st =? 0 then ret st else exit st.

(** [cmd || true] *)
Definition or_true (c : sh Z) : sh unit := c ;; ret tt.

(** Shell arithmetic is signed 64-bit. *)
Definition wrap64 (z : Z) : Z := (z + 2 ^ 63) mod 2 ^ 64 - 2 ^ 63.

(** The status a function hands back through [return n]: the low 8 bits. *)
Definition return_status (n : Z) : Z := n mod 256.

(** Decimal rendering of a shell integer. *)
Definition show (z : Z) : string := NilZero.string_of_int (Z.to_int z).

(** Unquoted expansion [$var]: split at blanks, drop empty words. *)
Fixpoint words_go (cur : string) (s : string) : list string :=
  match s with
  | EmptyString => if decide (cur = "") then [] else [cur]
  | String c rest =>
      if decide (c = " "%char)
      then (if decide (cur = "") then [] else [cur]) ++ words_go "" rest
      else words_go (cur +:+ String c "") rest
  end.
Definition words (s : string) : list string := words_go "" s.

Fixpoint spaces (n : nat) : string :=
  match n with O => "" | S k => " " +:+ spaces k end.

(** [printf "%-Ns"] and [printf "%Ns"] *)
Definition pad_right (n : nat) (s : string) : string :=
  s +:+ spaces (n - String.length s).
Definition pad_left (n : nat) (s : string) : string :=
  spaces (n - String.length s) +:+ s.

Section Commands.
Context (w : World).

(** [$(date +%s)] *)
Definition date_s : sh Z :=
  fun s => let t := clock w (nclock s) in
           (Done t, {| log := log s ++ [ClockRead t]; fs := fs s;
                       ndocker := ndocker s; nclock := S (nclock s) |}).

(** A container-build invocation: the engine is opaque, the script sees
    its exit status only; the files the script edits are left as they are. *)
Definition docker_build (env : list (string * string)) (argv : list string)
  : sh Z :=
  fun s => (Done (docker_status w (ndocker s)),
            {| log := log s ++ [Exec env argv]; fs := fs s;
               ndocker := S (ndocker s); nclock := nclock s |}).

(** Any other external command whose status the script ignores. *)
Definition run_ignored (argv : list string) : sh Z :=
  emit (Exec [] argv) ;; ret 0.

(** [docker buildx version >/dev/null 2>&1], used as an [if] condition. *)
Definition buildx_check : sh bool :=
  emit (Exec [] ["docker"; "buildx"; "version"]) ;; ret (buildx w).

(** [echo text >> path]: creates the file when it is missing. *)
Definition append_line (path text : string) : sh Z :=
  fun s => (Done 0,
            {| log := log s ++ [Append path text];
               fs := <[path := default "" (fs s !! path) +:+ text +:+ String "010" ""]> (fs s);
               ndocker := ndocker s; nclock := nclock s |}).

(** [cp src dst] *)
Definition cp (src dst : string) : sh Z :=
  fun s => match fs s !! src with
           | Some c => (Done 0, {| log := log s ++ [Copy src dst];
                                   fs := <[dst := c]> (fs s);
                                   ndocker := ndocker s; nclock := nclock s |})
           | None => (Done 1, {| log := log s ++ [Copy src dst]; fs := fs s;
                                 ndocker := ndocker s; nclock := nclock s |})
           end.

(** [mv src dst] *)
Definition mv (src dst : string) : sh Z :=
  fun s => match fs s !! src with
           | Some c => (Done 0, {| log := log s ++ [Move src dst];
                                   fs := <[dst := c]> (delete src (fs s));
                                   ndocker := ndocker s; nclock := nclock s |})
           | None => (Done 1, {| log := log s ++ [Move src dst]; fs := fs s;
                                 ndocker := ndocker s; nclock := nclock s |})
           end.

End Commands.

Definition init (files : gmap string string) : state :=
  {| log := []; fs := files; ndocker := 0; nclock := 0 |}.

(** Projections of a log. *)
Definition is_build (e : event) : bool :=
  match e with
  | Exec _ argv =>
      bool_decide (take 2 argv = ["docker"; "build"])
      || bool_decide (take 3 argv = ["docker"; "buildx"; "build"])
  | _ => false
  end.

Definition builds (l : list event) : list event := List.filter is_build l.

Definition is_out (e : event) : bool :=
  match e with Out _ => true | _ => false end.

Definition output (l : list event) : list string :=
  omap (fun e => match e with Out s => Some s | _ => None end) l.

(** Everything a run does apart from printing. *)
Definition timeline (l : list event) : list event :=
  List.filter (fun e => negb (is_out e)) l.

End Sh.

(** ** The measurement script *)

Module Measure.
Import Sh.

Definition IMAGE_NAME : string := "test-build-cache".
Definition ESC : string := String "027" "".
Definition GREEN : string := ESC +:+ "[0;32m".
Definition YELLOW : string := ESC +:+ "[1;33m".
Definition RED : string := ESC +:+ "[0;31m".
Definition NC : string := ESC +:+ "[0m".
Definition DQ : string := String "034" "".
Definition rule50 : string :=
  "==================================================".

Section Script.
Context (w : World).

(** [time_build build_type extra_args]; the value is the function's exit
    status, which is how the script passes [duration] to its caller. *)
Definition time_build (build_type extra_args : string) : sh Z :=
  echo (YELLOW +:+ "📊 Testing: " +:+ build_type +:+ NC) ;;
  echo ("Command: docker build " +:+ extra_args +:+ " -t " +:+ IMAGE_NAME +:+ " .") ;;
  echo "" ;;
  start_time ← date_s w;
  errexit (docker_build w [] (["docker"; "build"] ++ words extra_args
                              ++ ["-t"; IMAGE_NAME; "."])) ;;
  end_time ← date_s w;
  let duration := wrap64 (end_time - start_time) in
  echo (GREEN +:+ "✅ " +:+ build_type +:+ " completed in " +:+ show duration
        +:+ "s" +:+ NC) ;;
  echo "" ;;
  mret (return_status duration).

(** [printf "%-25s %10s\n" a b] *)
Definition row (a b : string) : string :=
  pad_right 25 a +:+ " " +:+ pad_left 10 b.

(** Lines 85-90: the guarded efficiency computation. *)
Definition cache_efficiency (clean_time cached_time : Z) : Z :=
  wrap64 (Z.quot (wrap64 (wrap64 (clean_time - cached_time) * 100)) clean_time).

Definition efficiency_report (clean_time cached_time : Z) : sh unit :=
  if 0 <? clean_time then
    echo "" ;;
    echo (GREEN +:+ "🎯 Cache efficiency: "
          +:+ show (cache_efficiency clean_time cached_time) +:+ "%" +:+ NC)
  else mret tt.

(** Lines 72-83: the results table. *)
Definition results_summary
    (clean_time cached_time source_change_time deps_change_time buildkit_time : Z)
  : sh unit :=
  echo (GREEN +:+ "📈 RESULTS SUMMARY" +:+ NC) ;;
  echo rule50 ;;
  echo (row "Build Type" "Time (s)") ;;
  echo "------------------------------------------" ;;
  echo (row "Clean build" (show clean_time +:+ "s")) ;;
  echo (row "Full cache" (show cached_time +:+ "s")) ;;
  echo (row "Source change" (show source_change_time +:+ "s")) ;;
  echo (row "Deps change" (show deps_change_time +:+ "s")) ;;
  (if 0 <? buildkit_time
   then echo (row "BuildKit" (show buildkit_time +:+ "s"))
   else mret tt).

Definition tips : sh unit :=
  echo "" ;;
  echo (GREEN +:+ "✅ Cache testing complete!" +:+ NC) ;;
  echo (YELLOW +:+ "💡 Tips:" +:+ NC) ;;
  echo "  - Full cache builds should be significantly faster" ;;
  echo "  - Source changes should only rebuild final stages" ;;
  echo "  - Dependency changes should rebuild from deps layer" ;;
  echo "  - Use 'docker system df' to see cache usage".

Definition routes_comment : string :=
  "// Cache test modification at " +:+ date_text w.
Definition package_comment : string :=
  "  " +:+ DQ +:+ "comment" +:+ DQ +:+ ": " +:+ DQ
  +:+ "cache test modification" +:+ DQ +:+ ",".

(** The whole script, top to bottom. *)
Definition script : sh unit :=
  echo (GREEN +:+ "🐳 Docker Build Cache Testing Script" +:+ NC) ;;
  echo rule50 ;;
  (* Test 1 *)
  echo (YELLOW +:+ "🧹 Test 1: Clean build (no cache)" +:+ NC) ;;
  clean_time ← errexit (time_build "Clean build" "--no-cache");
  (* Test 2 *)
  echo (YELLOW +:+ "🚀 Test 2: Rebuild with full cache" +:+ NC) ;;
  cached_time ← errexit (time_build "Cached build" "");
  (* Test 3 *)
  echo (YELLOW +:+ "🔧 Test 3: Modify source code" +:+ NC) ;;
  errexit (append_line "src/routes.ts" routes_comment) ;;
  source_change_time ← errexit (time_build "Source code change" "");
  (* Test 4 *)
  echo (YELLOW +:+ "📦 Test 4: Modify package.json" +:+ NC) ;;
  errexit (cp "package.json" "package.json.backup") ;;
  errexit (append_line "package.json" package_comment) ;;
  deps_change_time ← errexit (time_build "Dependency change" "");
  errexit (mv "package.json.backup" "package.json") ;;
  (* Test 5 *)
  has_buildx ← buildx_check w;
  buildkit_time ←
    (if has_buildx : bool then
       echo (YELLOW +:+ "🏗️ Test 5: BuildKit with cache mount" +:+ NC) ;;
       errexit (time_build "BuildKit build" "--builder=buildx")
     else
       echo (RED +:+ "⚠️ BuildKit not available, skipping test 5" +:+ NC) ;;
       mret 0);
  results_summary clean_time cached_time source_change_time deps_change_time
                  buildkit_time ;;
  efficiency_report clean_time cached_time ;;
  tips.

Definition run (files : gmap string string) : outcome unit * state :=
  script (init files).

End Script.

(** *** Vocabulary for the statements about the script *)

(** [end_time - start_time] of the [k]-th timed build of a run that gets
    that far (the script reads the clock twice per build). *)
Definition measured (w : World) (k : nat) : Z :=
  clock w (2 * k + 1) - clock w (2 * k).

Definition docker_build_cmd (flags : list string) : event :=
  Exec [] (["docker"; "build"] ++ flags ++ ["-t"; "test-build-cache"; "."]).

(** One timed build: start timestamp, the build, end timestamp. *)
Definition timed (w : World) (k : nat) (flags : list string) : list event :=
  [ ClockRead (clock w (2 * k)); docker_build_cmd flags;
    ClockRead (clock w (2 * k + 1)) ].

(** What a complete run does, in order. *)
Definition plan (w : World) : list event :=
  timed w 0 ["--no-cache"]
  ++ timed w 1 []
  ++ [Append "src/routes.ts" (routes_comment w)]
  ++ timed w 2 []
  ++ [Copy "package.json" "package.json.backup";
      Append "package.json" package_comment]
  ++ timed w 3 []
  ++ [Move "package.json.backup" "package.json";
      Exec [] ["docker"; "buildx"; "version"]]
  ++ (if buildx w then timed w 4 ["--builder=buildx"] else []).

(** What [time_build] prints before and after the build. *)
Definition time_build_intro (build_type extra_args : string) : list string :=
  [ YELLOW +:+ "📊 Testing: " +:+ build_type +:+ NC;
    "Command: docker build " +:+ extra_args +:+ " -t " +:+ IMAGE_NAME +:+ " .";
    "" ].

Definition time_build_outro (build_type : string) (duration : Z)
  : list string :=
  [ GREEN +:+ "✅ " +:+ build_type +:+ " completed in " +:+ show duration
    +:+ "s" +:+ NC;
    "" ].

Definition build_argv (extra_args : string) : list string :=
  ["docker"; "build"] ++ words extra_args ++ ["-t"; IMAGE_NAME; "."].

Definition has_line (r : string) (lines : list string) : bool :=
  existsb (String.eqb r) lines.

Definition efficiency_line (v : Z) : string :=
  GREEN +:+ "🎯 Cache efficiency: " +:+ show v +:+ "%" +:+ NC.

Definition is_efficiency_line (line : string) : bool :=
  String.prefix (GREEN +:+ "🎯 Cache efficiency: ") line.

Definition LF : string := String "010" "".

(** Sample machines and file trees. *)
Definition repo_files : gmap string string :=
  {[ "package.json" := "{}" +:+ LF;
     "src/routes.ts" := "export function createRoutes() {}" +:+ LF ]}.

(** Every build succeeds within the same second. *)
Definition instant : World :=
  {| buildx := false; docker_status := fun _ => 0; clock := fun _ => 1000;
     date_text := "Mon Jan  1 00:00:00 UTC 2024";
     script_name := "./test-cache.sh" |}.

(** As [instant], with buildx installed. *)
Definition instant_buildx : World :=
  {| buildx := true; docker_status := fun _ => 0; clock := fun _ => 1000;
     date_text := "Mon Jan  1 00:00:00 UTC 2024";
     script_name := "./test-cache.sh" |}.

(** The clean build takes 256 seconds, the others none. *)
Definition slow_clean : World :=
  {| buildx := false; docker_status := fun _ => 0;
     clock := fun n => match n with O => 1000 | _ => 1256 end;
     date_text := "Mon Jan  1 00:00:00 UTC 2024";
     script_name := "./test-cache.sh" |}.

(** The clean build takes 30 seconds. *)
Definition usual : World :=
  {| buildx := false; docker_status := fun _ => 0;
     clock := fun n => match n with O => 1000 | _ => 1030 end;
     date_text := "Mon Jan  1 00:00:00 UTC 2024";
     script_name := "./test-cache.sh" |}.





Definition stale_backup : gmap string string :=
  <["package.json.backup" := "{ old }" +:+ LF]> repo_files.

(** The first build fails with status 2. *)
Definition clean_build_fails : World :=
  {| buildx := false; docker_status := fun _ => 2; clock := fun _ => 1000;
     date_text := "Mon Jan  1 00:00:00 UTC 2024";
     script_name := "./test-cache.sh" |}.

End Measure.

(** ** scripts/build-scenarios.sh *)

Module Scenarios.
Import Sh.

Definition IMAGE_NAME : string := "test-build-cache".
Definition ESC : string := String "027" "".
Definition GREEN : string := ESC +:+ "[0;32m".
Definition YELLOW : string := ESC +:+ "[1;33m".
Definition BLUE : string := ESC +:+ "[0;34m".
Definition NC : string := ESC +:+ "[0m".

Section Script.
Context (w : World).

Definition banner : sh unit :=
  echo (GREEN +:+ "🐳 Docker Build Scenarios" +:+ NC) ;;
  echo "================================".

Definition usage_text : list string :=
  [ BLUE +:+ "Available scenarios:" +:+ NC;
    "";
    "  basic          - Standard docker build";
    "  no-cache       - Build without using cache";
    "  target         - Build specific stage only";
    "  buildkit       - Use BuildKit features";
    "  multi-platform - Multi-platform build";
    "  inline-cache   - Build with inline cache export";
    "  registry-cache - Use registry for cache";
    "  clean          - Clean up images and cache";
    "  all            - Run all scenarios";
    "";
    "Usage: " +:+ script_name w +:+ " <scenario>" ].

Definition show_usage : sh unit :=
  foldr (fun line k => echo line ;; k) (mret tt) usage_text.

Definition basic_build : sh Z :=
  echo (YELLOW +:+ "📦 Basic Build" +:+ NC) ;;
  errexit (docker_build w [] ["docker"; "build"; "-t"; IMAGE_NAME; "."]).

Definition no_cache_build : sh Z :=
  echo (YELLOW +:+ "🧹 No Cache Build" +:+ NC) ;;
  errexit (docker_build w [] ["docker"; "build"; "--no-cache"; "-t";
                              IMAGE_NAME; "."]).

Definition target_build : sh Z :=
  echo (YELLOW +:+ "🎯 Target Build (deps stage only)" +:+ NC) ;;
  errexit (docker_build w [] ["docker"; "build"; "--target"; "deps"; "-t";
                              IMAGE_NAME +:+ "-deps"; "."]).

Definition buildkit_build : sh Z :=
  echo (YELLOW +:+ "🏗️ BuildKit Build" +:+ NC) ;;
  has_buildx ← buildx_check w;
  if has_buildx : bool then
    errexit (docker_build w [("DOCKER_BUILDKIT", "1")]
                          ["docker"; "build"; "-t"; IMAGE_NAME; "."])
  else
    echo "BuildKit not available, using standard build" ;;
    errexit (docker_build w [] ["docker"; "build"; "-t"; IMAGE_NAME; "."]).

Definition multi_platform_build : sh Z :=
  echo (YELLOW +:+ "🌍 Multi-platform Build" +:+ NC) ;;
  has_buildx ← buildx_check w;
  if has_buildx : bool then
    errexit (docker_build w [] ["docker"; "buildx"; "build"; "--platform";
                                "linux/amd64,linux/arm64"; "-t"; IMAGE_NAME;
                                "."])
  else
    echo "Buildx not available, skipping multi-platform build" ;;
    mret 0.

Definition inline_cache_build : sh Z :=
  echo (YELLOW +:+ "💾 Inline Cache Build" +:+ NC) ;;
  has_buildx ← buildx_check w;
  if has_buildx : bool then
    errexit (docker_build w [] ["docker"; "buildx"; "build";
                                "--cache-to"; "type=inline";
                                "--cache-from"; IMAGE_NAME;
                                "-t"; IMAGE_NAME;
                                "--load"; "."])
  else
    echo "Buildx not available, using standard build" ;;
    errexit (docker_build w [] ["docker"; "build"; "-t"; IMAGE_NAME; "."]).

Definition registry_cache_build : sh Z :=
  echo (YELLOW +:+ "🏪 Registry Cache Build (simulated)" +:+ NC) ;;
  echo "Note: This would typically push/pull from a registry" ;;
  has_buildx ← buildx_check w;
  if has_buildx : bool then
    errexit (docker_build w [] ["docker"; "buildx"; "build";
                                "--cache-to"; "type=local,dest=/tmp/docker-cache";
                                "--cache-from"; "type=local,src=/tmp/docker-cache";
                                "-t"; IMAGE_NAME;
                                "--load"; "."])
  else
    echo "Buildx not available, using standard build" ;;
    errexit (docker_build w [] ["docker"; "build"; "-t"; IMAGE_NAME; "."]).

Definition clean_up : sh Z :=
  echo (YELLOW +:+ "🧽 Cleaning up" +:+ NC) ;;
  echo "Removing test images..." ;;
  or_true (run_ignored ["docker"; "rmi"; "-f"; IMAGE_NAME]) ;;
  or_true (run_ignored ["docker"; "rmi"; "-f"; IMAGE_NAME +:+ "-deps"]) ;;
  echo "Pruning build cache..." ;;
  or_true (run_ignored ["docker"; "builder"; "prune"; "-f"]) ;;
  echo "Removing temporary cache..." ;;
  or_true (run_ignored ["rm"; "-rf"; "/tmp/docker-cache"]) ;;
  echo (GREEN +:+ "✅ Cleanup complete" +:+ NC) ;;
  mret 0.

Definition run_all : sh Z :=
  echo (GREEN +:+ "🚀 Running all build scenarios" +:+ NC) ;;
  echo "" ;;
  errexit clean_up ;;
  errexit basic_build ;;
  echo "" ;;
  errexit no_cache_build ;;
  echo "" ;;
  errexit target_build ;;
  echo "" ;;
  errexit buildkit_build ;;
  echo "" ;;
  errexit multi_platform_build ;;
  echo "" ;;
  errexit inline_cache_build ;;
  echo "" ;;
  errexit registry_cache_build ;;
  echo "" ;;
  echo (GREEN +:+ "✅ All scenarios completed" +:+ NC) ;;
  mret 0.

(** The [case "${1:-}"] at the end of the script.  The patterns hold no
    glob characters, so each one matches exactly its own text. *)
Definition dispatch (arg : string) : sh Z :=
  if decide (arg = "basic") then errexit basic_build
  else if decide (arg = "no-cache") then errexit no_cache_build
  else if decide (arg = "target") then errexit target_build
  else if decide (arg = "buildkit") then errexit buildkit_build
  else if decide (arg = "multi-platform") then errexit multi_platform_build
  else if decide (arg = "inline-cache") then errexit inline_cache_build
  else if decide (arg = "registry-cache") then errexit registry_cache_build
  else if decide (arg = "clean") then errexit clean_up
  else if decide (arg = "all") then errexit run_all
  else show_usage ;; exit 1.

(** The script as invoked with the argument vector [args] ([$1] is its
    head; [${1:-}] is empty when there is none). *)
Definition script (args : list string) : sh Z :=
  banner ;;
  dispatch (default "" (head args)).

Definition run (args : list string) : outcome Z * state :=
  script args (init ∅).

(** A scenario function called on its own, from a fresh state. *)
Definition call (f : sh Z) : outcome Z * state := f (init ∅).

End Script.

(** The scenario functions by name, for statements that range over them. *)
Inductive scenario : Type :=
| Basic | NoCache | Target | Buildkit | MultiPlatform | InlineCache
| RegistryCache | Clean | All.

Definition all_scenarios : list scenario :=
  [Basic; NoCache; Target; Buildkit; MultiPlatform; InlineCache;
   RegistryCache; Clean; All].

Definition scenario_name (sc : scenario) : string :=
  match sc with
  | Basic => "basic" | NoCache => "no-cache" | Target => "target"
  | Buildkit => "buildkit" | MultiPlatform => "multi-platform"
  | InlineCache => "inline-cache" | RegistryCache => "registry-cache"
  | Clean => "clean" | All => "all"
  end.

Definition scenario_fun (w : World) (sc : scenario) : sh Z :=
  match sc with
  | Basic => basic_build w | NoCache => no_cache_build w
  | Target => target_build w | Buildkit => buildkit_build w
  | MultiPlatform => multi_platform_build w
  | InlineCache => inline_cache_build w
  | RegistryCache => registry_cache_build w
  | Clean => clean_up | All => run_all w
  end.

(** *** Vocabulary for the statements about the script *)

(** The build invocations a scenario function makes when called. *)
Definition builds_of (w : World) (sc : scenario) : list event :=
  builds (log (call (scenario_fun w sc)).2).

Definition plain_build : event :=
  Exec [] ["docker"; "build"; "-t"; "test-build-cache"; "."].

(** The one build each scenario wraps, with its flag set; none where the
    function has none to make. *)
Definition scenario_build (w : World) (sc : scenario) : list event :=
  match sc with
  | Basic => [plain_build]
  | NoCache =>
      [Exec [] ["docker"; "build"; "--no-cache"; "-t"; "test-build-cache"; "."]]
  | Target =>
      [Exec [] ["docker"; "build"; "--target"; "deps"; "-t";
                "test-build-cache-deps"; "."]]
  | Buildkit =>
      if buildx w
      then [Exec [("DOCKER_BUILDKIT", "1")]
                 ["docker"; "build"; "-t"; "test-build-cache"; "."]]
      else [plain_build]
  | MultiPlatform =>
      if buildx w
      then [Exec [] ["docker"; "buildx"; "build"; "--platform";
                     "linux/amd64,linux/arm64"; "-t"; "test-build-cache"; "."]]
      else []
  | InlineCache =>
      if buildx w
      then [Exec [] ["docker"; "buildx"; "build"; "--cache-to"; "type=inline";
                     "--cache-from"; "test-build-cache";
                     "-t"; "test-build-cache"; "--load"; "."]]
      else [plain_build]
  | RegistryCache =>
      if buildx w
      then [Exec [] ["docker"; "buildx"; "build";
                     "--cache-to"; "type=local,dest=/tmp/docker-cache";
                     "--cache-from"; "type=local,src=/tmp/docker-cache";
                     "-t"; "test-build-cache"; "--load"; "."]]
      else [plain_build]
  | Clean => []
  | All => []
  end.

(** The scenarios [run_all] goes through, in its order. *)
Definition single_scenarios : list scenario :=
  [Basic; NoCache; Target; Buildkit; MultiPlatform; InlineCache;
   RegistryCache].

Definition banner_lines : list string :=
  [ GREEN +:+ "🐳 Docker Build Scenarios" +:+ NC;
    "================================" ].

(** Sample machines: every build succeeds, without and with buildx. *)
Definition no_buildx : World :=
  {| buildx := false; docker_status := fun _ => 0; clock := fun _ => 0;
     date_text := ""; script_name := "./scripts/build-scenarios.sh" |}.

Definition with_buildx : World :=
  {| buildx := true; docker_status := fun _ => 0; clock := fun _ => 0;
     date_text := ""; script_name := "./scripts/build-scenarios.sh" |}.

(** The scenario names the usage text offers: the first word of each of
    its lines that starts with two blanks. *)
Fixpoint take_word (s : string) : string :=
  match s with
  | String c rest => if Ascii.eqb c " " then "" else String c (take_word rest)
  | EmptyString => ""
  end.

Definition usage_entry (line : string) : option string :=
  match line with
  | String a (String b rest) =>
      if Ascii.eqb a " " && Ascii.eqb b " " then Some (take_word rest)
      else None
  | _ => None
  end.

Definition usage_names (w : World) : list string :=
  omap usage_entry (usage_text w).

(** How many builds [run_all] makes when none fails. *)
Definition all_builds (w : World) : nat := if buildx w then 7%nat else 6%nat.

(** The third build fails with status 125. *)
Definition third_build_fails : World :=
  {| buildx := true;
     docker_status := fun n => match n with 2%nat => 125 | _ => 0 end;
     clock := fun _ => 0; date_text := "";
     script_name := "./scripts/build-scenarios.sh" |}.

End Scenarios.

(** ** The HTTP service: src/config.ts, src/routes.ts, src/index.ts *)

Module Http.

#[local] Unset Elimination Schemes.
Inductive json : Type :=
| JNull
| JBool (b : bool)
| JNum (n : Z)
| JStr (s : string)
| JArr (items : list json)
| JObj (fields : list (string * json)).
#[local] Set Elimination Schemes.

(** [obj.key] on a JSON object: the first field of that name. *)
Definition field (key : string) (v : json) : option json :=
  match v with
  | JObj fields => snd <$> List.find (fun kv => bool_decide (fst kv = key)) fields
  | _ => None
  end.

(** The Node process: its environment and what its clock and counters
    return at the [n]-th observation.  Floating-point readings
    ([process.uptime()], the fields of [process.memoryUsage()]) are kept as
    the JSON values the runtime renders them to. *)
Record Runtime : Type := {
  env : gmap string string;          (* process.env *)
  date_now : N -> Z;                 (* Date.now(), milliseconds *)
  iso_string : N -> string;          (* new Date().toISOString() *)
  uptime : N -> json;                (* process.uptime() *)
  memory_usage : N -> json;          (* process.memoryUsage() *)
  node_version : string;
  platform : string;
  arch : string
}.

Record BuildInfo : Type :=
  { version : string; buildTime : string; gitCommit : string }.
Record Features : Type :=
  { enableMetrics : bool; enableDebugMode : bool; enableCaching : bool }.
Record Config : Type := {
  port : option Z;                   (* [None] is NaN *)
  environment : string;
  buildInfo : BuildInfo;
  features : Features
}.

(** [process.env.K || d]: an unset or empty variable gives the default. *)
Definition env_or (rt : Runtime) (k d : string) : string :=
  match env rt !! k with
  | Some v => if decide (v = "") then d else v
  | None => d
  end.

(** [process.env.K === v] *)
Definition env_is (rt : Runtime) (k v : string) : bool :=
  bool_decide (env rt !! k = Some v).

(** [parseInt(s, 10)]: blanks, an optional sign, then the longest run of
    decimal digits; NaN when there is no digit.  Blanks are the ASCII
    ones. *)
Definition is_blank (c : ascii) : bool :=
  let n := nat_of_ascii c in
  bool_decide (n = 32 ∨ n = 9 ∨ n = 10 ∨ n = 11 ∨ n = 12 ∨ n = 13)%nat.

Definition digit_of (c : ascii) : option Z :=
  let n := Z.of_nat (nat_of_ascii c) in
  if (48 <=? n) && (n <=? 57) then Some (n - 48) else None.

Fixpoint skip_blanks (s : string) : string :=
  match s with
  | String c rest => if is_blank c then skip_blanks rest else s
  | EmptyString => s
  end.

Fixpoint digits_go (acc : option Z) (s : string) : option Z :=
  match s with
  | String c rest =>
      match digit_of c with
      | Some d => digits_go (Some (default 0 acc * 10 + d)) rest
      | None => acc
      end
  | EmptyString => acc
  end.

Definition parseInt10 (s : string) : option Z :=
  match skip_blanks s with
  | String "-" rest => Z.opp <$> digits_go None rest
  | String "+" rest => digits_go None rest
  | t => digits_go None t
  end.

(** src/config.ts, evaluated when the module is first imported; [t] is the
    observation index of its [new Date()]. *)
Definition load_config (rt : Runtime) (t : N) : Config :=
  {| port := parseInt10 (env_or rt "PORT" "3000");
     environment := env_or rt "NODE_ENV" "development";
     buildInfo := {| version := "1.0.0";
                     buildTime := iso_string rt t;
                     gitCommit := env_or rt "GIT_COMMIT" "unknown" |};
     features := {| enableMetrics := env_is rt "ENABLE_METRICS" "true";
                    enableDebugMode := env_is rt "DEBUG" "true";
                    enableCaching := negb (env_is rt "ENABLE_CACHING" "false") |}
  |}.

Definition json_of_buildInfo (b : BuildInfo) : json :=
  JObj [("version", JStr (version b)); ("buildTime", JStr (buildTime b));
        ("gitCommit", JStr (gitCommit b))].

Definition json_of_features (f : Features) : json :=
  JObj [("enableMetrics", JBool (enableMetrics f));
        ("enableDebugMode", JBool (enableDebugMode f));
        ("enableCaching", JBool (enableCaching f))].

(** Routes the service registers.  Matching a URL against them is
    Express's work and so are the middlewares of index.ts (helmet, cors,
    compression, morgan, the body parsers), which pass a GET request on to
    its handler; a request is taken here as already matched. *)
Inductive route : Type :=
| Home                               (* GET / *)
| Info                               (* GET /info *)
| Simulate (task : string)           (* GET /simulate/:task *)
| Health.                            (* GET /health *)

#[global] Instance route_eq_dec : EqDecision route.
Proof. solve_decision. Defined.

(** A request that matched a route; [rid] tells requests apart. *)
Record request : Type := { rid : nat; rroute : route }.

#[global] Instance request_eq_dec : EqDecision request.
Proof. solve_decision. Defined.

(** The Content-Type Express gives to [res.json]. *)
Definition json_type : string := "application/json; charset=utf-8".

Inductive body : Type :=
| JsonBody (v : json)                (* res.json(v) *)
| TextBody (s : string).             (* res.send(s) *)

Record response : Type :=
  { status : nat; content_type : string; payload : body }.

(** The closure handed to [setTimeout] in the io branch, with what it
    captures. *)
Inductive timer : Type :=
| IoReply (rq : request) (task : string) (startTime : Z).

Definition timer_request (t : timer) : request :=
  match t with IoReply rq _ _ => rq end.

Record server : Type := {
  config : Config;                          (* the imported module object *)
  tick : N;                                 (* runtime observations so far *)
  sent : list (request * response);         (* responses, oldest first *)
  timers : list timer                       (* pending, in firing order *)
}.

Definition js (A : Type) : Type := server -> A * server.

#[global] Instance js_ret : MRet js := fun A a s => (a, s).
#[global] Instance js_bind : MBind js :=
  fun A B k m s => let '(a, s') := m s in k a s'.

Section Service.
Context (rt : Runtime).

Definition observe {A} (f : Runtime -> N -> A) : js A :=
  fun s => (f rt (tick s),
            {| config := config s; tick := N.succ (tick s);
               sent := sent s; timers := timers s |}).

Definition Date_now : js Z := observe date_now.
Definition new_Date_toISOString : js string := observe iso_string.
Definition process_uptime : js json := observe uptime.
Definition process_memoryUsage : js json := observe memory_usage.
(** [Math.random()] and a bare [new Date()]: the value is a float or an
    object that the handlers never put in a response; only the
    observation is recorded. *)
Definition Math_random : js unit := observe (fun _ _ => tt).
Definition new_Date : js unit := observe (fun _ _ => tt).

Definition get_config : js Config := fun s => (config s, s).

(** [res.status(code).json(v)]; a bare [res.json(v)] has code 200. *)
Definition res_json (rq : request) (code : nat) (v : json) : js unit :=
  fun s => (tt, {| config := config s; tick := tick s;
                   sent := sent s ++ [(rq, {| status := code;
                       content_type := json_type;
                       payload := JsonBody v |})];
                   timers := timers s |}).

(** [setTimeout(cb, 100)]: every timer of the service has the same delay,
    so they fire in the order they were set. *)
Definition setTimeout (cb : timer) : js unit :=
  fun s => (tt, {| config := config s; tick := tick s; sent := sent s;
                   timers := timers s ++ [cb] |}).

(** [for (let i = 0; i < n; i++) body] *)
Definition repeat_js (n : N) (body : js unit) : js unit :=
  fun s => (tt, N.iter n (fun s' => snd (body s')) s).

(** src/routes.ts *)
Definition home (rq : request) : js unit :=
  cfg ← get_config;
  res_json rq 200
    (JObj [("message", JStr "🐳 Docker Build Cache Test Application");
           ("buildInfo", json_of_buildInfo (buildInfo cfg));
           ("features", json_of_features (features cfg));
           ("links", JObj [("health", JStr "/health"); ("info", JStr "/info");
                           ("simulate", JStr "/simulate")])]).

Definition info (rq : request) : js unit :=
  cfg ← get_config;
  up ← process_uptime;
  mem ← process_memoryUsage;
  res_json rq 200
    (JObj [("name", JStr "test-build-cache");
           ("description",
            JStr "Application for testing Docker build caching strategies");
           ("buildInfo", json_of_buildInfo (buildInfo cfg));
           ("features", json_of_features (features cfg));
           ("system", JObj [("nodeVersion", JStr (node_version rt));
                            ("platform", JStr (platform rt));
                            ("arch", JStr (arch rt));
                            ("uptime", up);
                            ("memoryUsage", mem)])]).

(** How a [switch] arm ends. *)
Inductive flow : Type := Break | Return.

Definition simulate (rq : request) (task : string) : js unit :=
  startTime ← Date_now;
  fl ← (if decide (task = "cpu") then
          repeat_js 1000000 Math_random ;;
          mret Break
        else if decide (task = "memory") then
          repeat_js 100000 (Math_random ;; new_Date) ;;
          mret Break
        else if decide (task = "io") then
          setTimeout (IoReply rq task startTime) ;;
          mret Return
        else
          res_json rq 400
            (JObj [("error", JStr "Unknown task. Use: cpu, memory, or io")]) ;;
          mret Return);
  match fl with
  | Return => mret tt
  | Break =>
      now ← Date_now;
      res_json rq 200
        (JObj [("task", JStr task);
               ("duration", JNum (now - startTime));
               ("message", JStr (task +:+ " simulation completed"))])
  end.

(** The body of the [setTimeout] callback. *)
Definition fire (t : timer) : js unit :=
  match t with
  | IoReply rq task startTime =>
      now ← Date_now;
      res_json rq 200
        (JObj [("task", JStr task);
               ("duration", JNum (now - startTime));
               ("message", JStr "I/O simulation completed")])
  end.

(** src/index.ts *)
Definition health (rq : request) : js unit :=
  ts ← new_Date_toISOString;
  up ← process_uptime;
  res_json rq 200
    (JObj [("status", JStr "healthy");
           ("timestamp", JStr ts);
           ("uptime", up);
           ("environment", JStr (env_or rt "NODE_ENV" "development"))]).

Definition handle (rq : request) : js unit :=
  match rroute rq with
  | Home => home rq
  | Info => info rq
  | Simulate task => simulate rq task
  | Health => health rq
  end.

(** The single-threaded event loop: one thing happens at a time, either a
    request is handled or the oldest pending timer fires. *)
Inductive input : Type :=
| Incoming (rq : request)
| TimerFires.

Definition step (i : input) (s : server) : server :=
  match i with
  | Incoming rq => snd (handle rq s)
  | TimerFires =>
      match timers s with
      | [] => s
      | t :: rest =>
          snd (fire t {| config := config s; tick := tick s; sent := sent s;
                         timers := rest |})
      end
  end.

Definition steps (inputs : list input) (s : server) : server :=
  foldl (fun s' i => step i s') s inputs.

(** Let every pending timer fire. *)
Definition drain (s : server) : server :=
  steps (replicate (length (timers s)) TimerFires) s.

(** Process start: the config module is evaluated, then the server
    listens. *)
Definition boot : server :=
  {| config := load_config rt 0; tick := 1; sent := []; timers := [] |}.

Definition serve (inputs : list input) : server :=
  drain (steps inputs boot).

End Service.

Definition responses_to (rq : request) (s : server) : list response :=
  snd <$> List.filter (fun p => bool_decide (fst p = rq)) (sent s).

Definition is_json (r : response) : bool :=
  match payload r with JsonBody _ => true | TextBody _ => false end.

(** *** Vocabulary for the statements about the service *)

(** The server after [k] more observations of the runtime. *)
Definition later (k : N) (s : server) : server :=
  {| config := config s; tick := (tick s + k)%N; sent := sent s;
     timers := timers s |}.

Definition ok_reply (task : string) (duration : Z) (message : string)
  : response :=
  {| status := 200;
     content_type := json_type;
     payload := JsonBody (JObj [("task", JStr task);
                                ("duration", JNum duration);
                                ("message", JStr message)]) |}.

Definition unknown_task_reply : response :=
  {| status := 400;
     content_type := json_type;
     payload := JsonBody
       (JObj [("error", JStr "Unknown task. Use: cpu, memory, or io")]) |}.

Definition duration_of (r : response) : option Z :=
  match payload r with
  | JsonBody v => match field "duration" v with
                  | Some (JNum d) => Some d
                  | _ => None
                  end
  | TextBody _ => None
  end.

#[global] Instance timer_eq_dec : EqDecision timer.
Proof. solve_decision. Defined.

#[global] Instance input_eq_dec : EqDecision input.
Proof. solve_decision. Defined.

(** What a response to a Home or Info request must carry to agree with
    the config [cfg]. *)
Definition carries_config (cfg : Config) (p : request * response) : Prop :=
  match rroute p.1 with
  | Home | Info =>
      exists v, payload p.2 = JsonBody v
                /\ field "buildInfo" v = Some (json_of_buildInfo (buildInfo cfg))
                /\ field "features" v = Some (json_of_features (features cfg))
  | _ => True
  end.

Definition completion_message (task : string) : string :=
  if decide (task = "io") then "I/O simulation completed"
  else task +:+ " simulation completed".

(** What a response to a /simulate/:task request looks like: the 400 error
    for an unknown task, otherwise task, duration and message, the
    duration being the difference of two clock readings, the second one
    observed later than the first. *)
Definition simulate_reply (rt : Runtime) (p : request * response) : Prop :=
  match rroute p.1 with
  | Simulate task =>
      if decide (task = "cpu" \/ task = "memory" \/ task = "io") then
        exists t0 t1 : N,
          (t0 < t1)%N
          /\ p.2 = ok_reply task (date_now rt t1 - date_now rt t0)
                            (completion_message task)
      else p.2 = unknown_task_reply
  | _ => True
  end.

(** One turn of the event loop, seen from outside. *)
Inductive turn (rt : Runtime) (s : server) : input -> server -> Prop :=
| Answered (rq : request) (r : response) (t' : N) :
    (tick s <= t')%N ->
    rroute rq <> Simulate "io" ->
    is_json r = true -> content_type r = json_type ->
    carries_config (config s) (rq, r) ->
    (forall task, rroute rq = Simulate task ->
       if decide (task = "cpu" \/ task = "memory") then
         exists t1, (tick s < t1)%N
           /\ r = ok_reply task (date_now rt t1 - date_now rt (tick s))
                           (task +:+ " simulation completed")
       else r = unknown_task_reply) ->
    turn rt s (Incoming rq)
      {| config := config s; tick := t';
         sent := sent s ++ [(rq, r)]; timers := timers s |}
| Deferred (rq : request) :
    rroute rq = Simulate "io" ->
    turn rt s (Incoming rq)
      {| config := config s; tick := N.succ (tick s); sent := sent s;
         timers := timers s ++ [IoReply rq "io" (date_now rt (tick s))] |}
| Fired (rq : request) (task : string) (start : Z) (rest : list timer) :
    timers s = IoReply rq task start :: rest ->
    turn rt s TimerFires
      {| config := config s; tick := N.succ (tick s);
         sent := sent s ++ [(rq, ok_reply task (date_now rt (tick s) - start)
                                   "I/O simulation completed")];
         timers := rest |}
| Idle :
    timers s = [] -> turn rt s TimerFires s.

Definition answered (rq : request) (s : server) : nat :=
  length (responses_to rq s).

Definition pending (rq : request) (s : server) : nat :=
  length (List.filter (fun t => bool_decide (timer_request t = rq)) (timers s)).

Definition arrivals (rq : request) (inputs : list input) : nat :=
  length (List.filter (fun i => bool_decide (i = Incoming rq)) inputs).

(** Sample runtimes: a clock that ticks once per observation, and one
    that is set back after the first reading a handler takes. *)
Definition steady : Runtime :=
  {| env := ∅; date_now := fun n => Z.of_N n;
     iso_string := fun _ => "2024-01-01T00:00:00.000Z";
     uptime := fun _ => JNum 1; memory_usage := fun _ => JObj [];
     node_version := "v20.0.0"; platform := "linux"; arch := "x64" |}.

Definition clock_set_back : Runtime :=
  {| env := ∅; date_now := fun n => if (n =? 1)%N then 1000 else 900;
     iso_string := fun _ => "2024-01-01T00:00:00.000Z";
     uptime := fun _ => JNum 1; memory_usage := fun _ => JObj [];
     node_version := "v20.0.0"; platform := "linux"; arch := "x64" |}.

(** The status a request is answered with: 400 for an unknown task, 200
    for everything else. *)
Definition known_task (task : string) : Prop :=
  task = "cpu" \/ task = "memory" \/ task = "io".

Definition expected_status (rq : request) : nat :=
  match rroute rq with
  | Simulate task => if decide (known_task task) then 200%nat else 400%nat
  | _ => 200%nat
  end.

(** Requests whose response waits on a timer, and the others. *)
Definition is_io (rq : request) : bool :=
  bool_decide (rroute rq = Simulate "io").

Definition arrived (inputs : list input) : list request :=
  omap (fun i => match i with Incoming rq => Some rq | TimerFires => None end)
       inputs.

Definition answered_requests (s : server) : list request := fst <$> sent s.

(** The runtime with another environment. *)
Definition with_env (rt : Runtime) (e : gmap string string) : Runtime :=
  {| env := e; date_now := date_now rt; iso_string := iso_string rt;
     uptime := uptime rt; memory_usage := memory_usage rt;
     node_version := node_version rt; platform := platform rt;
     arch := arch rt |}.

(** The config of a process started with nothing set. *)
Definition default_config (build_time : string) : Config :=
  {| port := Some 3000;
     environment := "development";
     buildInfo := {| version := "1.0.0"; buildTime := build_time;
                     gitCommit := "unknown" |};
     features := {| enableMetrics := false; enableDebugMode := false;
                    enableCaching := true |} |}.



End Http.

(** * Properties *)

Import Sh.

(** ** How the shell monad computes *)

Lemma bind_eq {A B} (m : sh A) (k : A -> sh B) (st : state) :
  (m ≫= k) st = match m st with
                | (Done a, s') => k a s'
                | (Exited n, s') => (Exited n, s')
                end.
Proof. reflexivity. Qed.

Lemma mret_eq {A} (a : A) (st : state) : (mret a : sh A) st = (Done a, st).
Proof. reflexivity. Qed.

Lemma echo_eq (line : string) (st : state) :
  echo line st = (Done tt, {| log := log st ++ [Out line]; fs := fs st;
                              ndocker := ndocker st; nclock := nclock st |}).
Proof. reflexivity. Qed.

Lemma errexit_eq (c : sh Z) (st : state) :
  errexit c st = match c st with
                 | (Done v, s') => if v =? 0 then (Done 0, s') else (Exited v, s')
                 | (Exited n, s') => (Exited n, s')
                 end.
Proof.
  unfold errexit. rewrite bind_eq. destruct (c st) as [[v|n] s']; [|reflexivity].
  destruct (v =? 0) eqn:E; [|reflexivity]. apply Z.eqb_eq in E. by subst.
Qed.

(** Under [set -e] the only status a command can have and still let the
    script go on is 0: that is all [$?] can be on the next line. *)
Lemma errexit_done_zero (c : sh Z) (st st' : state) (v : Z) :
  errexit c st = (Done v, st') -> v = 0.
Proof.
  rewrite errexit_eq. destruct (c st) as [[v0|n] s']; [|discriminate].
  destruct (v0 =? 0); [|discriminate]. by intros [= <- _].
Qed.

Lemma builds_of_output (lines : list string) :
  List.filter is_build (Out <$> lines) = [].
Proof. induction lines as [|l lines IH]; [reflexivity|exact IH]. Qed.

Lemma wrap64_small (z : Z) : - 2 ^ 63 <= z < 2 ^ 63 -> wrap64 z = z.
Proof.
  intros H. unfold wrap64. rewrite Z.mod_small; lia.
Qed.

(** ** The measurement script *)

Module MeasureProps.
Import Measure.

Ltac sh_basic :=
  first [ rewrite bind_eq | rewrite echo_eq | rewrite errexit_eq
        | rewrite mret_eq
        | progress unfold date_s, docker_build
        | progress cbn [log fs ndocker nclock] ].

(** [time_build] in closed form: a failing build stops before the end
    timestamp is taken; otherwise the status is the duration's low byte. *)
Lemma time_build_eq (w : World) (bt ea : string) (st : state) :
  time_build w bt ea st =
    let t0 := clock w (nclock st) in
    let t1 := clock w (S (nclock st)) in
    if docker_status w (ndocker st) =? 0 then
      (Done (return_status (wrap64 (t1 - t0))),
       {| log := log st ++ (Out <$> time_build_intro bt ea)
                 ++ [ClockRead t0; Exec [] (build_argv ea); ClockRead t1]
                 ++ (Out <$> time_build_outro bt (wrap64 (t1 - t0)));
          fs := fs st; ndocker := S (ndocker st);
          nclock := S (S (nclock st)) |})
    else
      (Exited (docker_status w (ndocker st)),
       {| log := log st ++ (Out <$> time_build_intro bt ea)
                 ++ [ClockRead t0; Exec [] (build_argv ea)];
          fs := fs st; ndocker := S (ndocker st); nclock := S (nclock st) |}).
Proof.
  unfold time_build. repeat sh_basic. cbv zeta.
  destruct (docker_status w (ndocker st) =? 0) eqn:E.
  - repeat sh_basic. rewrite <- ?app_assoc. reflexivity.
  - rewrite <- ?app_assoc. reflexivity.
Qed.

(** Symbolic execution of the script: unfold the commands, then split
    wherever the machine decides. *)
Ltac sh_unfold :=
  repeat progress
    (cbv beta iota zeta delta
       [run script time_build results_summary
        efficiency_report tips errexit or_true echo emit exit ret bind mbind
        sh_bind mret sh_ret date_s docker_build append_line cp mv
        buildx_check run_ignored init log fs ndocker nclock fst snd
        buildx docker_status clock date_text script_name];
     change (0 =? 0) with true; change (1 =? 0) with false;
     change (0 <? 0) with false).

Ltac sh_split :=
  match goal with
  | |- context [if return_status ?d =? 0 then _ else _] =>
      let E := fresh "Hret" in
      destruct (return_status d =? 0) eqn:E;
      [ apply Z.eqb_eq in E; rewrite ?E | ]
  | |- context [if ?c then _ else _] => destruct c eqn:?
  | |- context [match ?m !! ?k with _ => _ end] =>
      first [ rewrite lookup_insert_eq
            | rewrite lookup_insert_ne by done
            | destruct (m !! k) eqn:? ]
  end.

Ltac sh_exec := sh_unfold; repeat (sh_split; sh_unfold).

Ltac eqb_facts :=
  repeat match goal with
         | H : (_ =? _) = true |- _ => apply Z.eqb_eq in H
         | H : (_ =? _) = false |- _ => apply Z.eqb_neq in H
         end.


Lemma efficiency_line_recognised (v : Z) :
  is_efficiency_line (efficiency_line v) = true.
Proof.
  unfold is_efficiency_line, efficiency_line.
  generalize (show v +:+ "%" +:+ NC). intros rest.
  destruct rest; vm_compute; reflexivity.
Qed.

Lemma no_efficiency_line (lines : list string) :
  forallb (fun l => negb (is_efficiency_line l)) lines = true ->
  forall v, efficiency_line v ∉ lines.
Proof.
  intros H v Hin. apply list_elem_of_In in Hin.
  rewrite forallb_forall in H. specialize (H _ Hin).
  by rewrite efficiency_line_recognised in H.
Qed.

Lemma has_line_elem (r : string) (lines : list string) :
  has_line r lines = true -> r ∈ lines.
Proof.
  unfold has_line. rewrite existsb_exists. intros (x & Hin & Heq).
  apply String.eqb_eq in Heq. subst x. by apply list_elem_of_In.
Qed.

Lemma has_line_not_elem (r : string) (lines : list string) :
  has_line r lines = false -> r ∉ lines.
Proof.
  intros H Hin. apply list_elem_of_In in Hin.
  assert (has_line r lines = true) as H'; [|congruence].
  unfold has_line. apply existsb_exists. exists r. split; [done|].
  apply String.eqb_refl.
Qed.

Lemma quot_within (x c b : Z) : 0 < c -> - b <= x <= b -> - b <= Z.quot x c <= b.
Proof.
  intros Hc Hx. destruct (Z.le_gt_cases 0 x) as [Hpos|Hneg].
  - rewrite Z.quot_div_nonneg by lia.
    pose proof (Z.div_pos x c Hpos Hc).
    pose proof (Z.div_le_upper_bound x c x Hc ltac:(nia)). lia.
  - replace x with (- (- x)) by lia. rewrite Z.quot_opp_l by lia.
    rewrite Z.quot_div_nonneg by lia.
    pose proof (Z.div_pos (- x) c ltac:(lia) Hc).
    pose proof (Z.div_le_upper_bound (- x) c (- x) Hc ltac:(nia)). lia.
Qed.

(** On exit statuses the 64-bit arithmetic of the shell never wraps. *)
Lemma cache_efficiency_exact (clean_time cached_time : Z) :
  0 < clean_time <= 255 -> 0 <= cached_time <= 255 ->
  cache_efficiency clean_time cached_time
  = Z.quot ((clean_time - cached_time) * 100) clean_time.
Proof.
  intros Hc Hd. unfold cache_efficiency.
  rewrite (wrap64_small (clean_time - cached_time)) by lia.
  rewrite (wrap64_small (_ * 100)) by lia.
  apply wrap64_small.
  pose proof (quot_within ((clean_time - cached_time) * 100) clean_time 25500
                ltac:(lia) ltac:(lia)). lia.
Qed.

(** X1: the order of the script.  Whatever the machine does, what a run has
    done when it ends is an initial segment of the plan (clean build with
    --no-cache, cached build, routes.ts append, build, package.json backup
    and append, build, restore, buildx probe, BuildKit build if buildx is
    there), each build between its own two timestamps; and a run that
    reaches the end has done all of it. *)
Lemma run_follows_plan (w : World) (files : gmap string string) :
  timeline (log (run w files).2) `prefix_of` plan w
  /\ ((run w files).1 = Done tt ->
      timeline (log (run w files).2) = plan w).
Proof.
  destruct w as [bx ds ck dt sn]; destruct bx.
  all: sh_exec.
  all: (split; [ | try discriminate; intros _ ]).
  all: try (vm_compute; reflexivity).
  all: try (eexists; vm_compute; reflexivity).
Qed.

(** X9: no run of the script, complete or not, prints a cache-efficiency
    line, and a run that gets to its summary reports 0s for every build:
    the script can only go past a [time_build] call whose status is 0, and
    that status is the only thing it keeps of the duration. *)
Lemma summary_only_ever_zero (w : World) (files : gmap string string) :
  (forall v, efficiency_line v ∉ output (log (run w files).2))
  /\ ((run w files).1 = Done tt ->
      Forall (fun r => r ∈ output (log (run w files).2))
        [ row "Clean build" "0s"; row "Full cache" "0s";
          row "Source change" "0s"; row "Deps change" "0s" ]).
Proof.
  destruct w as [bx ds ck dt sn]; destruct bx.
  all: sh_exec.
  all: (split; [ apply no_efficiency_line; vm_compute; reflexivity
               | try discriminate; intros _ ]).
  all: repeat first [ apply List.Forall_nil | apply List.Forall_cons ].
  all: apply has_line_elem; vm_compute; reflexivity.
Qed.




(** C2, at a clean build of 256 seconds: the script goes on, and its
    summary row says 0s where [end_time - start_time] was 256.  At a clean
    build of 30 seconds the script ends with status 30 right after the
    build, and prints no summary. *)
Theorem C2_summary_loses_the_duration :
  (measured slow_clean 0 = 256
   /\ (run slow_clean repo_files).1 = Done tt
   /\ row "Clean build" "0s" ∈ output (log (run slow_clean repo_files).2)
   /\ row "Clean build" "256s" ∉ output (log (run slow_clean repo_files).2))
  /\ (measured usual 0 = 30
      /\ (run usual repo_files).1 = Exited 30
      /\ length (builds (log (run usual repo_files).2)) = 1%nat
      /\ row "Clean build" "30s" ∉ output (log (run usual repo_files).2)).
Proof.
  repeat split; try (vm_compute; reflexivity).
  - apply has_line_elem. vm_compute. reflexivity.
  - apply has_line_not_elem. vm_compute. reflexivity.
  - apply has_line_not_elem. vm_compute. reflexivity.
Qed.


(** C7, at a machine where every build would succeed and the clean build
    takes 30 seconds: the script ends with status 30 as soon as
    [time_build] hands that duration back, having run the first of its
    builds only. *)
Theorem C7_stops_after_first_build :
  (forall n, docker_status usual n = 0)
  /\ measured usual 0 = 30
  /\ (run usual repo_files).1 = Exited 30
  /\ timeline (log (run usual repo_files).2) = timed usual 0 ["--no-cache"]
  /\ timeline (log (run usual repo_files).2) <> plan usual.
Proof.
  repeat split; try (vm_compute; reflexivity).
  vm_compute. discriminate.
Qed.


End MeasureProps.

(** ** The scenario script *)

Module ScenarioProps.
Import Scenarios.

Lemma show_usage_eq (w : World) (st : state) :
  show_usage w st
  = (Done tt, {| log := log st ++ (Out <$> usage_text w); fs := fs st;
                 ndocker := ndocker st; nclock := nclock st |}).
Proof.
  unfold show_usage. generalize (usage_text w) as lines. intros lines.
  revert st. induction lines as [|line lines IH]; intros st.
  - cbn. rewrite app_nil_r. by destruct st.
  - cbn [foldr]. rewrite bind_eq, echo_eq, IH. cbn [log fs ndocker nclock].
    by rewrite <- app_assoc.
Qed.

Lemma banner_eq (st : state) :
  banner st
  = (Done tt, {| log := log st ++ (Out <$> banner_lines); fs := fs st;
                 ndocker := ndocker st; nclock := nclock st |}).
Proof.
  unfold banner. rewrite bind_eq, !echo_eq. cbn [log fs ndocker nclock].
  by rewrite <- app_assoc.
Qed.

Ltac sc_unfold :=
  repeat progress
    (cbv beta iota zeta delta
       [builds_of scenario_fun call run script dispatch
        banner show_usage
        basic_build no_cache_build target_build buildkit_build
        multi_platform_build inline_cache_build registry_cache_build
        clean_up run_all
        errexit or_true echo emit exit ret bind mbind sh_bind mret sh_ret
        docker_build buildx_check run_ignored
        init log fs ndocker nclock fst snd
        buildx docker_status clock date_text script_name];
     change (0 =? 0) with true).

Ltac sc_split :=
  match goal with
  | |- context [if ?c then _ else _] => destruct c eqn:?
  end.

Ltac sc_exec := sc_unfold; repeat (sc_split; sc_unfold).


(** C3, as the script has it: basic, no-cache, target, buildkit,
    inline-cache and registry-cache each perform exactly one build
    invocation in every environment (the last three fall back to the plain
    build when buildx is missing); multi-platform performs one when buildx
    is there and none otherwise; clean performs none; all performs the
    seven scenarios in turn, so when every build succeeds its invocations
    are theirs, in order. *)
Theorem C3_builds_per_scenario (w : World) :
  Forall (fun sc => builds_of w sc = scenario_build w sc)
         (single_scenarios ++ [Clean])%list
  /\ Forall (fun sc => length (builds_of w sc) = 1%nat)
            [Basic; NoCache; Target;
             Buildkit; InlineCache;
             RegistryCache]
  /\ length (builds_of w MultiPlatform)
     = (if buildx w then 1 else 0)%nat
  /\ length (builds_of w Clean) = 0%nat
  /\ ((forall n, docker_status w n = 0) ->
      builds_of w All
      = concat (scenario_build w <$> single_scenarios)).
Proof.
  destruct w as [bx ds ck dt sn]; destruct bx.
  all: repeat split.
  all: repeat first [ apply List.Forall_nil | apply List.Forall_cons ].
  all: try (sc_exec; vm_compute; reflexivity).
  all: intros Hok; sc_unfold; repeat (rewrite Hok; sc_unfold).
  all: vm_compute; reflexivity.
Qed.

Lemma C3_builds_per_scenario_witness :
  builds_of with_buildx All
  = concat (scenario_build with_buildx <$> single_scenarios)
  /\ length (builds_of with_buildx All) = 7%nat.
Proof.
  split.
  - apply (C3_builds_per_scenario with_buildx). intros n. reflexivity.
  - rewrite (proj2 (proj2 (proj2 (proj2 (C3_builds_per_scenario with_buildx)))))
      by (intros n; reflexivity).
    reflexivity.
Defined.

(** C3 as stated fails: without buildx the multi-platform scenario invokes
    no build at all, the clean-up function never invokes one, and the
    run-all function invokes several. *)
Lemma C3_not_one_build_each :
  length (builds_of no_buildx MultiPlatform) = 0%nat
  /\ length (builds_of no_buildx Clean) = 0%nat
  /\ length (builds_of no_buildx All) = 6%nat
  /\ ~ (forall w sc, length (builds_of w sc) = 1%nat).
Proof.
  repeat split; try (vm_compute; reflexivity).
  intros H. specialize (H no_buildx MultiPlatform).
  vm_compute in H. discriminate H.
Qed.

(** C4: the script dispatches on its first argument.  For each of the
    nine names it runs the banner and then exactly the function of that
    name; for any other first argument, a missing one included, it prints
    the banner and the usage text, invokes nothing, and exits with
    status 1. *)
Theorem C4_dispatch (w : World) (args : list string) :
  (forall sc, default "" (head args) = scenario_name sc ->
     forall st, script w args st
                = (banner ;; errexit (scenario_fun w sc)) st)
  /\ ((forall sc, default "" (head args) <> scenario_name sc) ->
      forall st,
        (script w args st).1 = Exited 1
        /\ log (script w args st).2
           = (log st ++ (Out <$> (banner_lines ++ usage_text w)))%list
        /\ builds (log (script w args st).2) = builds (log st)).
Proof.
  split.
  - intros sc Harg st. unfold script. rewrite Harg.
    rewrite !bind_eq. destruct (banner st) as [[[]|n] st1]; [|done].
    unfold dispatch.
    destruct sc; cbn [scenario_name scenario_fun];
      repeat (case_decide as Hd; [try discriminate Hd|try (exfalso; by apply Hd)]);
      reflexivity.
  - intros Hnone st.
    assert (script w args st
            = (Exited 1,
               {| log := log st ++ (Out <$> (banner_lines ++ usage_text w));
                  fs := fs st; ndocker := ndocker st; nclock := nclock st |}))
      as ->.
    { unfold script, dispatch.
      pose proof (Hnone Basic). pose proof (Hnone NoCache).
      pose proof (Hnone Target). pose proof (Hnone Buildkit).
      pose proof (Hnone MultiPlatform).
      pose proof (Hnone InlineCache).
      pose proof (Hnone RegistryCache).
      pose proof (Hnone Clean). pose proof (Hnone All).
      cbn [scenario_name] in *.
      rewrite bind_eq, banner_eq.
      repeat (case_decide as Hd; [exfalso; congruence|clear Hd]).
      rewrite bind_eq, show_usage_eq. cbn [log fs ndocker nclock].
      unfold exit. by rewrite fmap_app, <- app_assoc. }
    cbn [fst snd log]. repeat split.
    unfold builds. rewrite List.filter_app, builds_of_output.
    apply app_nil_r.
Qed.

Lemma C4_dispatch_witness :
  script no_buildx ["target"] (init ∅)
  = (banner ;; errexit (target_build no_buildx)) (init ∅)
  /\ (script no_buildx [] (init ∅)).1 = Exited 1
  /\ (script no_buildx ["deploy"] (init ∅)).1 = Exited 1.
Proof.
  split; [|split].
  - apply (proj1 (C4_dispatch no_buildx ["target"]) Target). reflexivity.
  - apply (proj2 (C4_dispatch no_buildx [])).
    intros sc. destruct sc; discriminate.
  - apply (proj2 (C4_dispatch no_buildx ["deploy"])).
    intros sc. destruct sc; discriminate.
Defined.

End ScenarioProps.

(** ** The HTTP service *)

Module HttpProps.
Import Http.

Lemma later_0 (s : server) : later 0 s = s.
Proof. destruct s. unfold later. cbn. by rewrite N.add_0_r. Qed.

Lemma later_later (a b : N) (s : server) :
  later b (later a s) = later (a + b) s.
Proof. unfold later. cbn. by rewrite N.add_assoc. Qed.

(** A loop whose body only observes the runtime [k] times. *)
Lemma repeat_js_later (k n : N) (body : js unit) (s : server) :
  (forall s', (body s').2 = later k s') ->
  repeat_js n body s = (tt, later (n * k) s).
Proof.
  intros Hbody. unfold repeat_js. f_equal.
  induction n as [|n IH] using N.peano_ind.
  - cbn. by rewrite later_0.
  - rewrite N.iter_succ, IH, Hbody, later_later. f_equal. lia.
Qed.

Lemma cpu_loop (rt : Runtime) (s : server) :
  repeat_js 1000000 (Math_random rt) s = (tt, later 1000000 s).
Proof.
  rewrite (repeat_js_later 1); [reflexivity|].
  intros s'. unfold later, Math_random, observe. cbn [snd].
  f_equal. lia.
Qed.

Lemma memory_loop (rt : Runtime) (s : server) :
  repeat_js 100000 (Math_random rt ;; new_Date rt) s = (tt, later 200000 s).
Proof.
  rewrite (repeat_js_later 2); [reflexivity|].
  intros s'. unfold later, Math_random, new_Date, observe, mbind, js_bind.
  cbn [snd config tick sent timers]. f_equal. lia.
Qed.

(** [simulate] arm by arm. *)
Lemma simulate_cpu (rt : Runtime) (rq : request) (s : server) :
  (simulate rt rq "cpu" s).2
  = {| config := config s; tick := (tick s + 1000002)%N;
       sent := sent s ++ [(rq, ok_reply "cpu"
                 (date_now rt (tick s + 1000001)%N - date_now rt (tick s))
                 "cpu simulation completed")];
       timers := timers s |}.
Proof.
  unfold simulate, mbind, js_bind.
  cbn -[repeat_js N.add N.succ Math_random].
  case_decide as Hd; [clear Hd|exfalso; by apply Hd].
  rewrite cpu_loop. cbn -[N.add N.succ].
  replace (N.succ (tick s) + 1000000)%N with (tick s + 1000001)%N by lia.
  replace (N.succ (tick s + 1000001))%N with (tick s + 1000002)%N by lia.
  reflexivity.
Qed.

Lemma simulate_memory (rt : Runtime) (rq : request) (s : server) :
  (simulate rt rq "memory" s).2
  = {| config := config s; tick := (tick s + 200002)%N;
       sent := sent s ++ [(rq, ok_reply "memory"
                 (date_now rt (tick s + 200001)%N - date_now rt (tick s))
                 "memory simulation completed")];
       timers := timers s |}.
Proof.
  unfold simulate, mbind, js_bind.
  cbn -[repeat_js N.add N.succ Math_random new_Date].
  case_decide as Hd; [exfalso; discriminate Hd|clear Hd].
  case_decide as Hd; [clear Hd|exfalso; by apply Hd].
  change (λ s1 : server, let '(_, s') := Math_random rt s1 in new_Date rt s')
    with (Math_random rt ;; new_Date rt).
  rewrite memory_loop. cbn -[N.add N.succ].
  replace (N.succ (tick s) + 200000)%N with (tick s + 200001)%N by lia.
  replace (N.succ (tick s + 200001))%N with (tick s + 200002)%N by lia.
  reflexivity.
Qed.

Lemma simulate_io (rt : Runtime) (rq : request) (s : server) :
  (simulate rt rq "io" s).2
  = {| config := config s; tick := N.succ (tick s); sent := sent s;
       timers := timers s ++ [IoReply rq "io" (date_now rt (tick s))] |}.
Proof.
  unfold simulate, mbind, js_bind. cbn -[repeat_js N.succ].
  repeat (case_decide as Hd; [exfalso; discriminate Hd|clear Hd]).
  case_decide as Hd; [reflexivity|exfalso; by apply Hd].
Qed.

Lemma simulate_unknown (rt : Runtime) (rq : request) (task : string)
    (s : server) :
  task <> "cpu" -> task <> "memory" -> task <> "io" ->
  (simulate rt rq task s).2
  = {| config := config s; tick := N.succ (tick s);
       sent := sent s ++ [(rq, unknown_task_reply)];
       timers := timers s |}.
Proof.
  intros H1 H2 H3. unfold simulate, mbind, js_bind. cbn -[repeat_js N.succ].
  repeat (case_decide as Hd; [exfalso; congruence|clear Hd]).
  reflexivity.
Qed.

Lemma fire_eq (rt : Runtime) (rq : request) (task : string) (start : Z)
    (s : server) :
  (fire rt (IoReply rq task start) s).2
  = {| config := config s; tick := N.succ (tick s);
       sent := sent s ++ [(rq, ok_reply task (date_now rt (tick s) - start)
                                 "I/O simulation completed")];
       timers := timers s |}.
Proof. reflexivity. Qed.


Lemma step_turn (rt : Runtime) (i : input) (s : server) :
  turn rt s i (step rt i s).
Proof.
  destruct i as [[id r]|]; cbn [step].
  - unfold handle. cbn [rroute]. destruct r as [| |task|].
    + unfold home, mbind, js_bind, get_config, res_json. cbn [snd].
      eapply Answered; [ lia | done | done | done | | done ].
      unfold carries_config. cbn. eexists. split; [reflexivity|].
      split; vm_compute; reflexivity.
    + unfold info, mbind, js_bind, get_config, res_json, process_uptime,
        process_memoryUsage, observe. cbn [snd config tick sent timers].
      eapply Answered; [ lia | done | done | done | | done ].
      unfold carries_config. cbn. eexists. split; [reflexivity|].
      split; vm_compute; reflexivity.
    + destruct (decide (task = "cpu")) as [->|Hcpu];
        [|destruct (decide (task = "memory")) as [->|Hmem];
          [|destruct (decide (task = "io")) as [->|Hio]]].
      * rewrite simulate_cpu. apply Answered; [ lia | done | done | done | done | ].
        intros task [= <-]. case_decide as Hd; [|exfalso; tauto].
        exists (tick s + 1000001)%N. split; [lia|done].
      * rewrite simulate_memory.
        apply Answered; [ lia | done | done | done | done | ].
        intros task [= <-]. case_decide as Hd; [|exfalso; tauto].
        exists (tick s + 200001)%N. split; [lia|done].
      * rewrite simulate_io. by apply Deferred.
      * rewrite simulate_unknown by done.
        apply Answered; [ lia | cbn; congruence | done | done | done | ].
        intros task' [= <-]. case_decide as Hd; [exfalso; tauto|done].
    + unfold health, mbind, js_bind, res_json, new_Date_toISOString,
        process_uptime, observe. cbn [snd config tick sent timers].
      eapply Answered; [ lia | done | done | done | done | done ].
  - destruct (timers s) as [|[rq task start] rest] eqn:Ht.
    + by apply Idle.
    + rewrite fire_eq. cbn [config tick sent timers]. by apply Fired.
Qed.

Lemma steps_snoc (rt : Runtime) (inputs : list input) (i : input)
    (s : server) :
  steps rt (inputs ++ [i])%list s = step rt i (steps rt inputs s).
Proof. unfold steps. by rewrite foldl_app. Qed.

(** Induction over what the event loop has done so far. *)
Lemma steps_ind (rt : Runtime) (P : list input -> server -> Prop)
    (s0 : server) :
  P [] s0 ->
  (forall inputs i s s', P inputs s -> turn rt s i s' -> P (inputs ++ [i])%list s') ->
  forall inputs, P inputs (steps rt inputs s0).
Proof.
  intros H0 Hstep inputs. induction inputs as [|i inputs IH] using rev_ind.
  - exact H0.
  - rewrite steps_snoc. eapply Hstep; [exact IH|apply step_turn].
Qed.


Lemma drain_eq (rt : Runtime) (s : server) :
  drain rt s = steps rt (replicate (length (timers s)) TimerFires) s.
Proof. reflexivity. Qed.

(** A property of the server that every turn keeps holds when the queue
    has been served and the timers have fired. *)
Lemma serve_ind (rt : Runtime) (P : server -> Prop) :
  P (boot rt) ->
  (forall i s s', P s -> turn rt s i s' -> P s') ->
  forall inputs, P (serve rt inputs).
Proof.
  intros H0 Hstep inputs. unfold serve. rewrite drain_eq.
  apply (steps_ind rt (fun _ s => P s)); [|by eauto].
  apply (steps_ind rt (fun _ s => P s)); [exact H0|by eauto].
Qed.

(** Draining leaves no timer behind. *)
Lemma fire_all (rt : Runtime) (n : nat) (s : server) :
  length (timers s) = n ->
  timers (steps rt (replicate n TimerFires) s) = [].
Proof.
  revert s. induction n as [|n IH]; intros s Hn.
  - cbn. by destruct (timers s).
  - cbn [replicate]. unfold steps in *. cbn [foldl]. apply IH.
    pose proof (step_turn rt TimerFires s) as Ht.
    remember (step rt TimerFires s) as s' eqn:Hs'. clear Hs'.
    remember TimerFires as i eqn:Hi.
    destruct Ht as [| |rq task start rest Htm|Htm]; try discriminate Hi.
    + cbn. rewrite Htm in Hn. cbn in Hn. lia.
    + rewrite Htm in Hn. discriminate Hn.
Qed.

Lemma drain_no_timers (rt : Runtime) (s : server) : timers (drain rt s) = [].
Proof. rewrite drain_eq. by apply fire_all. Qed.

Lemma answered_snoc (rq rq' : request) (r : response) (cfg : Config)
    (t : N) (l : list (request * response)) (tm : list timer) :
  answered rq {| config := cfg; tick := t; sent := l ++ [(rq', r)];
                 timers := tm |}
  = (answered rq {| config := cfg; tick := t; sent := l; timers := tm |}
     + (if bool_decide (rq' = rq) then 1 else 0))%nat.
Proof.
  unfold answered, responses_to. cbn [sent].
  rewrite List.filter_app, fmap_app, length_app. cbn.
  by destruct (bool_decide (rq' = rq)).
Qed.

(** Every request that arrived is either answered or waits on a timer. *)
Lemma answered_or_pending (rt : Runtime) (rq : request)
    (inputs : list input) :
  (answered rq (steps rt inputs (boot rt))
   + pending rq (steps rt inputs (boot rt)))%nat
  = arrivals rq inputs.
Proof.
  apply (steps_ind rt (fun inputs s =>
           (answered rq s + pending rq s)%nat = arrivals rq inputs));
    [reflexivity|].
  clear inputs. intros inputs i s s' IH Ht.
  unfold arrivals. rewrite List.filter_app, length_app. fold (arrivals rq inputs).
  rewrite <- IH. clear IH.
  destruct Ht as [rq' r t' | rq' Hio | rq' task start rest Htm | Htm].
  - rewrite answered_snoc. unfold answered, pending, responses_to. cbn.
    repeat case_bool_decide; simplify_eq; cbn; lia.
  - unfold answered, pending, responses_to. cbn [sent timers].
    rewrite List.filter_app, length_app. cbn.
    repeat case_bool_decide; simplify_eq; cbn; lia.
  - rewrite answered_snoc. unfold answered, pending, responses_to.
    rewrite Htm. cbn.
    repeat case_bool_decide; simplify_eq; cbn; lia.
  - cbn. case_bool_decide; simplify_eq; cbn; lia.
Qed.

(** A request on its own gets its response, once the timers have fired. *)
Lemma lone_request (rt : Runtime) (rq : request) :
  exists r, sent (serve rt [Incoming rq]) = [(rq, r)] /\ is_json r = true.
Proof.
  pose proof (step_turn rt (Incoming rq) (boot rt)) as Hturn.
  unfold serve, steps. cbn [foldl].
  remember (step rt (Incoming rq) (boot rt)) as s1 eqn:Hs1. clear Hs1.
  remember (Incoming rq) as i eqn:Hi.
  destruct Hturn as [rq' r t' Hle Hnio Hj Hc Hcfg Hsim
                    | rq' Hio | rq' task start rest Htm | Htm];
    try discriminate Hi; injection Hi as ->.
  - exists r. split; [reflexivity|done].
  - eexists. rewrite drain_eq. cbn [timers sent boot app length replicate].
    unfold steps. cbn [foldl step timers]. rewrite fire_eq. cbn [sent boot app].
    split; reflexivity.
Qed.

(** C5, as the handler has it: an unknown task gets status 400 and the
    JSON error body; cpu, memory and io get status 200 and a JSON body
    with the task name, a duration and a completion message.  The duration
    is the difference of two readings of the wall clock, the second taken
    later than the first, so it is non-negative whenever the clock does
    not run backwards. *)
Theorem C5_simulate_replies (rt : Runtime) :
  (forall inputs, Forall (simulate_reply rt) (sent (serve rt inputs)))
  /\ (forall id task, exists r,
        sent (serve rt [Incoming {| rid := id; rroute := Simulate task |}])
        = [({| rid := id; rroute := Simulate task |}, r)])
  /\ ((forall a b : N, (a <= b)%N -> date_now rt a <= date_now rt b) ->
      forall inputs,
        Forall (fun p => match rroute p.1 with
                         | Simulate _ =>
                             forall d, duration_of p.2 = Some d -> 0 <= d
                         | _ => True
                         end)
               (sent (serve rt inputs))).
Proof.
  pose (on_time (t' : N) (t : timer) :=
          match t with
          | IoReply rq task start =>
              rroute rq = Simulate "io" /\ task = "io"
              /\ exists t0, (t0 < t')%N /\ start = date_now rt t0
          end).
  assert (forall a b t, (a <= b)%N -> on_time a t -> on_time b t) as Hlater.
  { intros a b [rq task start] Hle (? & ? & t0 & ? & ?).
    repeat split; try done. exists t0. split; [lia|done]. }
  assert (forall inputs, Forall (simulate_reply rt) (sent (serve rt inputs)))
    as Hall.
  { intros inputs.
    apply (serve_ind rt (fun s => Forall (simulate_reply rt) (sent s)
                                  /\ Forall (on_time (tick s)) (timers s))).
    - split; apply Forall_nil_2.
    - clear inputs. intros i s s' [Hs Ht] Hturn.
      destruct Hturn as [rq r t' Hle Hnio Hj Hc Hcfg Hsim
                        | rq Hio | rq task start rest Htm | Htm].
      + cbn [sent timers tick]. split.
        2:{ eapply Forall_impl; [exact Ht|]. intros t. by apply Hlater. }
        apply Forall_app. split; [done|].
        apply Forall_singleton. unfold simulate_reply. cbn [fst snd].
        destruct (rroute rq) as [| |task|] eqn:Hr; try done.
        specialize (Hsim task eq_refl).
        destruct (decide (task = "cpu" \/ task = "memory")) as [Hcm|Hcm].
        * rewrite decide_True by tauto.
          destruct Hsim as (t1 & Hlt & ->). exists (tick s), t1.
          split; [done|]. unfold completion_message.
          rewrite decide_False; [done|]. by destruct Hcm as [->| ->].
        * rewrite decide_False; [done|].
          intros [?|[?|?]]; [tauto|tauto|congruence].
      + cbn [sent timers tick]. split; [done|].
        apply Forall_app. split.
        * eapply Forall_impl; [exact Ht|]. intros t. apply Hlater. lia.
        * apply Forall_singleton. repeat split; try done.
          exists (tick s). split; [lia|done].
      + rewrite Htm in Ht.
        apply Forall_cons in Ht as [(Hio & -> & t0 & Hlt & ->) Hrest].
        cbn [sent timers tick]. split.
        * apply Forall_app. split; [done|].
          apply Forall_singleton. unfold simulate_reply. cbn [fst snd].
          rewrite Hio. rewrite decide_True by tauto.
          exists t0, (tick s). split; [done|].
          unfold completion_message. by rewrite decide_True.
        * eapply Forall_impl; [exact Hrest|]. intros t. apply Hlater. lia.
      + done. }
  split; [exact Hall|]. split.
  { intros id task.
    destruct (lone_request rt {| rid := id; rroute := Simulate task |})
      as (r & Hr & _).
    by exists r. }
  intros Hmono inputs. eapply Forall_impl; [exact (Hall inputs)|].
  intros [rq r] Hp. unfold simulate_reply in Hp. cbn [fst snd] in *.
  destruct (rroute rq) as [| |task|] eqn:Hr; try done.
  intros d Hd. case_decide.
  - destruct Hp as (t0 & t1 & Hlt & ->). cbn in Hd.
    injection Hd as <-. specialize (Hmono t0 t1 ltac:(lia)). lia.
  - subst r. discriminate Hd.
Qed.

Lemma C5_simulate_replies_witness :
  Forall (fun p => match rroute p.1 with
                   | Simulate _ => forall d, duration_of p.2 = Some d -> 0 <= d
                   | _ => True
                   end)
         (sent (serve steady [Incoming {| rid := 1; rroute := Simulate "io" |};
                              Incoming {| rid := 2; rroute := Simulate "x" |}])).
Proof.
  apply (proj2 (proj2 (C5_simulate_replies steady))).
  intros a b Hab. cbn. lia.
Defined.

(** C5 as stated fails: when the wall clock is set back while the cpu task
    runs, the duration in the 200 response is negative. *)
Lemma C5_negative_duration :
  exists r d,
    sent (serve clock_set_back
            [Incoming {| rid := 1; rroute := Simulate "cpu" |}])
    = [({| rid := 1; rroute := Simulate "cpu" |}, r)]
    /\ status r = 200%nat /\ duration_of r = Some d /\ d < 0.
Proof.
  exists (ok_reply "cpu" (-100) "cpu simulation completed"), (-100).
  split; [vm_compute; reflexivity|]. repeat split; reflexivity.
Qed.

(** C6: whatever requests arrive and whenever the timers fire, every
    response the service sends is a JSON body with the JSON content type;
    and each of the four routes does send one. *)
Theorem C6_every_response_is_json (rt : Runtime) :
  (forall inputs,
     Forall (fun p => is_json p.2 = true /\ content_type p.2 = json_type)
            (sent (serve rt inputs)))
  /\ (forall rq, exists r,
        sent (serve rt [Incoming rq]) = [(rq, r)] /\ is_json r = true).
Proof.
  assert (forall inputs,
            Forall (fun p => is_json p.2 = true /\ content_type p.2 = json_type)
                   (sent (serve rt inputs))) as Hall.
  { intros inputs. apply serve_ind; [apply Forall_nil_2|].
    clear inputs. intros i s s' Hs Hturn.
    destruct Hturn as [rq r t' Hle Hnio Hj Hc Hcfg Hsim
                      | rq Hio | rq task start rest Htm | Htm];
      cbn [sent]; try done.
    - apply Forall_app. split; [done|]. by apply Forall_singleton.
    - apply Forall_app. split; [done|]. by apply Forall_singleton. }
  split; [exact Hall|]. apply lone_request.
Qed.

(** C9: every request gets exactly one response.  Counting over any
    sequence of arrivals and timer firings, once the timers have fired the
    responses sent for a request are as many as its arrivals.  In the
    /simulate/:task handler the io arm sends nothing itself and leaves one
    timer whose callback sends the one response; every other arm sends one
    response and leaves no timer. *)
Theorem C9_exactly_one_response (rt : Runtime) :
  (forall inputs rq,
     length (responses_to rq (serve rt inputs)) = arrivals rq inputs)
  /\ (forall rq task s,
        if decide (task = "io")
        then sent (simulate rt rq task s).2 = sent s
             /\ exists start,
                  timers (simulate rt rq task s).2
                  = (timers s ++ [IoReply rq task start])%list
                  /\ forall s', sent (fire rt (IoReply rq task start) s').2
                                = (sent s' ++ [(rq, ok_reply task
                                     (date_now rt (tick s') - start)
                                     "I/O simulation completed")])%list
        else timers (simulate rt rq task s).2 = timers s
             /\ exists r, sent (simulate rt rq task s).2
                          = (sent s ++ [(rq, r)])%list).
Proof.
  split.
  - intros inputs rq.
    pose proof (answered_or_pending rt rq inputs) as Hcount.
    assert (forall n s,
              length (timers s) = n ->
              (answered rq (steps rt (replicate n TimerFires) s)
               = answered rq s + pending rq s)%nat) as Hdrain.
    { induction n as [|n IH]; intros s Hn.
      - cbn. unfold pending. destruct (timers s); [cbn; lia|discriminate Hn].
      - cbn [replicate]. unfold steps in *. cbn [foldl].
        pose proof (step_turn rt TimerFires s) as Ht.
        remember (step rt TimerFires s) as s' eqn:Hs'. clear Hs'.
        remember TimerFires as i eqn:Hi.
        destruct Ht as [| |rq' task start rest Htm|Htm]; try discriminate Hi.
        + rewrite IH by (cbn; rewrite Htm in Hn; cbn in Hn; lia).
          rewrite answered_snoc. unfold answered, pending, responses_to.
          rewrite Htm. cbn.
          repeat case_bool_decide; simplify_eq; cbn; lia.
        + rewrite Htm in Hn. discriminate Hn. }
    unfold serve. rewrite drain_eq.
    fold (answered rq (steps rt (replicate (length (timers (steps rt inputs (boot rt)))) TimerFires) (steps rt inputs (boot rt)))).
    rewrite (Hdrain _ _ eq_refl). exact Hcount.
  - intros rq task s. case_decide as Hio.
    + subst task. rewrite simulate_io. cbn [sent timers]. split; [done|].
      eexists. split; [reflexivity|]. intros s'. by rewrite fire_eq.
    + destruct (decide (task = "cpu")) as [->|Hcpu];
        [|destruct (decide (task = "memory")) as [->|Hmem]].
      * rewrite simulate_cpu. cbn [sent timers]. split; [done|by eexists].
      * rewrite simulate_memory. cbn [sent timers]. split; [done|by eexists].
      * rewrite simulate_unknown by done. cbn [sent timers].
        split; [done|by eexists].
Qed.

(** C10: the config is computed once, when the process starts, and no
    turn of the event loop changes it; so every response to GET / and
    GET /info of the process carries the buildInfo and features of that
    one config. *)
Theorem C10_config_fixed_per_process (rt : Runtime) (inputs : list input) :
  config (boot rt) = load_config rt 0
  /\ config (steps rt inputs (boot rt)) = load_config rt 0
  /\ config (serve rt inputs) = load_config rt 0
  /\ Forall (carries_config (load_config rt 0)) (sent (serve rt inputs)).
Proof.
  pose (same (s : server) :=
          config s = load_config rt 0
          /\ Forall (carries_config (load_config rt 0)) (sent s)
          /\ Forall (fun t => rroute (timer_request t) = Simulate "io")
                    (timers s)).
  assert (same (boot rt)) as Hboot.
  { repeat split; apply Forall_nil_2. }
  assert (forall i s s', same s -> turn rt s i s' -> same s') as Hkeep.
  { intros i s s' (Hcfg & Hs & Htimers) Hturn.
    destruct Hturn as [rq r t' Hle Hnio Hj Hc Hcarries Hsim
                      | rq Hio | rq task start rest Htm | Htm];
      repeat split; cbn [config sent timers]; try done.
    - apply Forall_app. split; [done|]. apply Forall_singleton.
      by rewrite <- Hcfg.
    - apply Forall_app. split; [done|]. by apply Forall_singleton.
    - rewrite Htm in Htimers. apply Forall_cons in Htimers as [Hio _].
      apply Forall_app. split; [done|]. apply Forall_singleton.
      unfold carries_config. cbn [fst snd timer_request] in *.
      by rewrite Hio.
    - rewrite Htm in Htimers. by apply Forall_cons in Htimers as [_ ?]. }
  split; [reflexivity|].
  assert (same (steps rt inputs (boot rt))) as (? & _).
  { apply (steps_ind rt (fun _ s => same s)); [exact Hboot|].
    intros ? ? ? ? ? ?. by eapply Hkeep. }
  assert (same (serve rt inputs)) as (? & ? & _).
  { apply serve_ind; [exact Hboot|exact Hkeep]. }
  done.
Qed.

End HttpProps.

(** * Further properties of the scripts and the service *)

(** ** The measurement script *)

Module MeasureMore.
Import Measure MeasureProps.

Lemma run_follows_plan_witness :
  timeline (log (run instant_buildx repo_files).2) = plan instant_buildx.
Proof.
  apply (proj2 (run_follows_plan instant_buildx repo_files)).
  vm_compute. reflexivity.
Defined.

Lemma summary_only_ever_zero_witness :
  Forall (fun r => r ∈ output (log (run instant repo_files).2))
    [ row "Clean build" "0s"; row "Full cache" "0s";
      row "Source change" "0s"; row "Deps change" "0s" ].
Proof.
  apply (proj2 (summary_only_ever_zero instant repo_files)).
  vm_compute. reflexivity.
Defined.




(** X3: the script never ends early with status 0: whenever it stops
    before its last line, its exit status is non-zero. *)
Theorem early_exit_is_a_failure (w : World) (files : gmap string string)
    (n : Z) :
  (run w files).1 = Exited n -> n <> 0.
Proof.
  destruct w as [bx ds ck dt sn]; destruct bx.
  all: sh_exec.
  all: intros [= <-]; eqb_facts; done.
Qed.

Lemma early_exit_is_a_failure_witness :
  (run clean_build_fails repo_files).1 = Exited 2 /\ 2 <> 0.
Proof.
  assert ((run clean_build_fails repo_files).1 = Exited 2) as H
    by (vm_compute; reflexivity).
  split; [exact H|].
  exact (early_exit_is_a_failure clean_build_fails repo_files 2 H).
Defined.

(** X4: whatever happens, a run leaves every file other than
    src/routes.ts, package.json and package.json.backup as it was. *)
Theorem run_touches_three_paths (w : World) (files : gmap string string)
    (path : string) :
  path <> "src/routes.ts" -> path <> "package.json" ->
  path <> "package.json.backup" ->
  fs (run w files).2 !! path = files !! path.
Proof.
  intros H1 H2 H3.
  destruct w as [bx ds ck dt sn]; destruct bx.
  all: sh_exec.
  all: by simplify_map_eq.
Qed.

Lemma run_touches_three_paths_witness :
  fs (run instant repo_files).2 !! "tsconfig.json" = repo_files !! "tsconfig.json".
Proof.
  apply (run_touches_three_paths instant repo_files "tsconfig.json");
    discriminate.
Defined.

(** X5: a run that completes leaves no package.json.backup behind, also
    when one was there before: the backup of the run overwrites it and the
    restore moves it away. *)
Theorem backup_is_consumed (w : World) (files : gmap string string) :
  (run w files).1 = Done tt ->
  fs (run w files).2 !! "package.json.backup" = None.
Proof.
  destruct w as [bx ds ck dt sn]; destruct bx.
  all: sh_exec.
  all: try discriminate.
  all: intros _; by simplify_map_eq.
Qed.

Lemma backup_is_consumed_witness :
  is_Some (stale_backup !! "package.json.backup")
  /\ fs (run instant stale_backup).2 !! "package.json.backup" = None.
Proof.
  split.
  - eexists. vm_compute. reflexivity.
  - apply (backup_is_consumed instant stale_backup). vm_compute. reflexivity.
Defined.



(** X7: on exit statuses with a positive [clean_time] the ratio is at most
    100, it is 100 exactly when [cached_time] is 0, it is not negative
    when the cached build was not slower than the clean one and not
    positive when it was not faster. *)
Theorem cache_efficiency_range (clean_time cached_time : Z) :
  0 < clean_time <= 255 -> 0 <= cached_time <= 255 ->
  cache_efficiency clean_time cached_time <= 100
  /\ (cache_efficiency clean_time cached_time = 100 <-> cached_time = 0)
  /\ (cached_time <= clean_time -> 0 <= cache_efficiency clean_time cached_time)
  /\ (clean_time <= cached_time -> cache_efficiency clean_time cached_time <= 0).
Proof.
  intros Hc Hd. rewrite cache_efficiency_exact by lia.
  destruct (Z.le_gt_cases cached_time clean_time) as [Hle|Hgt].
  - rewrite Z.quot_div_nonneg by nia.
    pose proof (Z.div_le_upper_bound ((clean_time - cached_time) * 100)
                  clean_time 100 ltac:(lia) ltac:(nia)).
    pose proof (Z.div_pos ((clean_time - cached_time) * 100) clean_time
                  ltac:(nia) ltac:(lia)).
    repeat split; try lia.
    + intros Heq.
      pose proof (Z.mul_div_le ((clean_time - cached_time) * 100) clean_time
                    ltac:(lia)). nia.
    + intros ->. rewrite Z.sub_0_r, Z.mul_comm. rewrite Z.div_mul by lia. lia.
    + intros Hge. assert (cached_time = clean_time) as -> by lia.
      rewrite Z.sub_diag. cbn. by rewrite Z.div_0_l by lia.
  - replace ((clean_time - cached_time) * 100)
      with (- ((cached_time - clean_time) * 100)) by lia.
    rewrite Z.quot_opp_l by lia. rewrite Z.quot_div_nonneg by nia.
    pose proof (Z.div_pos ((cached_time - clean_time) * 100) clean_time
                  ltac:(nia) ltac:(lia)).
    repeat split; try lia.
Qed.

Lemma cache_efficiency_range_witness :
  cache_efficiency 30 0 = 100 /\ cache_efficiency 30 2 <= 100.
Proof.
  destruct (cache_efficiency_range 30 0 ltac:(lia) ltac:(lia))
    as (_ & H100 & _).
  destruct (cache_efficiency_range 30 2 ltac:(lia) ltac:(lia)) as (Hle & _).
  split; [by apply H100|exact Hle].
Defined.

(** X8: whatever its outcome, [time_build] invokes exactly one build and
    leaves the files alone.  When the build fails it stops with the
    build's (non-zero) status; otherwise it hands back a status between 0
    and 255, the low byte of the measured duration. *)
Theorem time_build_effect (w : World) (bt ea : string) (st : state) :
  fs (time_build w bt ea st).2 = fs st
  /\ builds (log (time_build w bt ea st).2)
     = builds (log st) ++ [Exec [] (build_argv ea)]
  /\ match (time_build w bt ea st).1 with
     | Done s =>
         docker_status w (ndocker st) = 0
         /\ 0 <= s < 256
         /\ s = wrap64 (clock w (S (nclock st)) - clock w (nclock st)) mod 256
     | Exited n => n = docker_status w (ndocker st) /\ n <> 0
     end.
Proof.
  rewrite time_build_eq. cbv zeta.
  destruct (docker_status w (ndocker st) =? 0) eqn:E; eqb_facts;
    cbn [fst snd fs log].
  - split; [done|]. split.
    + unfold builds. rewrite !List.filter_app, !builds_of_output.
      by rewrite app_nil_r.
    + split; [done|]. unfold return_status. split; [|done].
      apply Z.mod_pos_bound. lia.
  - split; [done|]. split; [|done].
    unfold builds. by rewrite !List.filter_app, !builds_of_output.
Qed.


End MeasureMore.

(** ** The scenario script *)

Module ScenarioMore.
Import Scenarios ScenarioProps.

Ltac eqb_facts :=
  repeat match goal with
         | H : (_ =? _) = true |- _ => apply Z.eqb_eq in H
         | H : (_ =? _) = false |- _ => apply Z.eqb_neq in H
         end.

(** The script called with a scenario's name: the banner, then that
    function. *)
Lemma script_named (w : World) (sc : scenario) (rest : list string)
    (st : state) :
  script w (scenario_name sc :: rest) st
  = (banner ;; errexit (scenario_fun w sc)) st.
Proof.
  unfold script. cbn [head default].
  rewrite !bind_eq. destruct (banner st) as [[[]|n] st1]; [|done].
  unfold dispatch.
  destruct sc; cbn [scenario_name scenario_fun];
    repeat (case_decide as Hd; [try discriminate Hd|try (exfalso; by apply Hd)]);
    reflexivity.
Qed.

(** X11: called with the name of one scenario the script ends with the
    status of the one build it makes: 0 when the build succeeds, the
    build's status when it fails; multi-platform without buildx and clean
    always end with 0.  Arguments after the first are ignored. *)
Theorem scenario_exit_status (w : World) (sc : scenario)
    (rest : list string) :
  sc <> All ->
  (run w (scenario_name sc :: rest)).1
  = match sc with
    | Clean => Done 0
    | MultiPlatform =>
        if buildx w then
          if docker_status w 0 =? 0 then Done 0
          else Exited (docker_status w 0)
        else Done 0
    | _ => if docker_status w 0 =? 0 then Done 0
           else Exited (docker_status w 0)
    end.
Proof.
  intros Hsc. unfold run. rewrite script_named.
  destruct w as [bx ds ck dt sn]; destruct bx; destruct sc; try done.
  all: sc_exec; eqb_facts; congruence.
Qed.

Lemma scenario_exit_status_witness :
  (run third_build_fails ["target"; "extra"]).1 = Done 0.
Proof.
  exact (scenario_exit_status third_build_fails Target ["extra"]
           ltac:(discriminate)).
Defined.

(** X12: [run_all] stops at the first build that fails: if build [k] is
    the first with a non-zero status, the script ends with that status
    after exactly [k + 1] build invocations; if none of its builds (seven
    with buildx, six without) fails, it makes them all and ends with 0. *)
Theorem run_all_stops_at_first_failure (w : World) :
  (forall k, (k < all_builds w)%nat ->
     (forall j, (j < k)%nat -> docker_status w j = 0) ->
     docker_status w k <> 0 ->
     (run w ["all"]).1 = Exited (docker_status w k)
     /\ length (builds (log (run w ["all"]).2)) = S k)
  /\ ((forall j, (j < all_builds w)%nat -> docker_status w j = 0) ->
      (run w ["all"]).1 = Done 0
      /\ length (builds (log (run w ["all"]).2)) = all_builds w).
Proof.
  unfold run. rewrite (script_named w All []).
  destruct w as [bx ds ck dt sn]; destruct bx; unfold all_builds;
    cbn [buildx docker_status].
  all: split;
    [ intros k Hk Hbefore Hfail;
      try (pose proof (Hbefore 0%nat) as H0);
      try (pose proof (Hbefore 1%nat) as H1);
      try (pose proof (Hbefore 2%nat) as H2);
      try (pose proof (Hbefore 3%nat) as H3);
      try (pose proof (Hbefore 4%nat) as H4);
      try (pose proof (Hbefore 5%nat) as H5);
      destruct k as [|[|[|[|[|[|[|k]]]]]]]; try lia
    | intros Hall;
      pose proof (Hall 0%nat ltac:(lia)); pose proof (Hall 1%nat ltac:(lia));
      pose proof (Hall 2%nat ltac:(lia)); pose proof (Hall 3%nat ltac:(lia));
      pose proof (Hall 4%nat ltac:(lia)); pose proof (Hall 5%nat ltac:(lia));
      try (pose proof (Hall 6%nat ltac:(lia))) ].
  all: sc_exec; eqb_facts.
  all: try (split; [reflexivity|vm_compute; reflexivity]).
  all: try congruence.
  all: try (exfalso; (apply Hfail + idtac); lia).
Qed.

Lemma run_all_stops_at_first_failure_witness :
  ((run third_build_fails ["all"]).1 = Exited 125
   /\ length (builds (log (run third_build_fails ["all"]).2)) = 3%nat)
  /\ ((run with_buildx ["all"]).1 = Done 0
      /\ length (builds (log (run with_buildx ["all"]).2)) = 7%nat).
Proof.
  split.
  - apply (proj1 (run_all_stops_at_first_failure third_build_fails) 2%nat).
    + cbn. lia.
    + intros j Hj. destruct j as [|[|j]]; [reflexivity|reflexivity|lia].
    + cbn. discriminate.
  - apply (proj2 (run_all_stops_at_first_failure with_buildx)).
    intros j Hj. reflexivity.
Defined.

Lemma output_of_lines (lines : list string) : output (Out <$> lines) = lines.
Proof.
  unfold output. induction lines as [|l lines IH]; [done|]. cbn. by f_equal.
Qed.

Lemma output_snoc_lines (l : list event) (lines : list string) :
  output (l ++ (Out <$> lines)) = output l ++ lines.
Proof.
  rewrite <- (output_of_lines lines) at 2. unfold output. apply omap_app.
Qed.

(** The script called with anything else: banner, usage text, status 1. *)
Lemma script_unnamed (w : World) (args : list string) (st : state) :
  (forall sc, default "" (head args) <> scenario_name sc) ->
  script w args st
  = (Exited 1,
     {| log := log st ++ (Out <$> (banner_lines ++ usage_text w));
        fs := fs st; ndocker := ndocker st; nclock := nclock st |}).
Proof.
  intros Hnone. unfold script, dispatch.
  pose proof (Hnone Basic). pose proof (Hnone NoCache).
  pose proof (Hnone Target). pose proof (Hnone Buildkit).
  pose proof (Hnone MultiPlatform). pose proof (Hnone InlineCache).
  pose proof (Hnone RegistryCache). pose proof (Hnone Clean).
  pose proof (Hnone All).
  cbn [scenario_name] in *.
  rewrite bind_eq, banner_eq.
  repeat (case_decide as Hd; [exfalso; congruence|clear Hd]).
  rewrite bind_eq, show_usage_eq. cbn [log fs ndocker nclock].
  unfold exit. by rewrite fmap_app, <- app_assoc.
Qed.

(** X13: the usage text and the [case] agree.  The names the usage text
    lists are exactly the nine the [case] has arms for, in the order of
    the arms; a first argument the usage text lists is run as the scenario
    of that name, and one it does not list gets the usage text, status 1
    and no build. *)
Theorem usage_lists_the_scenarios (w : World) :
  usage_names w = scenario_name <$> all_scenarios
  /\ (forall arg rest st,
        arg ∈ usage_names w ->
        exists sc, arg = scenario_name sc
                   /\ script w (arg :: rest) st
                      = (banner ;; errexit (scenario_fun w sc)) st)
  /\ (forall arg rest st,
        arg ∉ usage_names w ->
        (script w (arg :: rest) st).1 = Exited 1
        /\ output (log (script w (arg :: rest) st).2)
           = output (log st) ++ banner_lines ++ usage_text w
        /\ builds (log (script w (arg :: rest) st).2) = builds (log st)).
Proof.
  assert (usage_names w = scenario_name <$> all_scenarios) as Hnames.
  { destruct w as [bx ds ck dt sn]. vm_compute. reflexivity. }
  split; [exact Hnames|]. rewrite Hnames. split.
  - intros arg rest st (sc & -> & _)%list_elem_of_fmap.
    exists sc. split; [done|]. apply script_named.
  - intros arg rest st Hnot.
    rewrite script_unnamed.
    2:{ intros sc Heq. simpl in Heq. subst arg. apply Hnot.
        apply list_elem_of_fmap. exists sc. split; [done|].
        destruct sc; unfold all_scenarios; set_solver. }
    cbn [fst snd log]. split; [done|]. split.
    + apply output_snoc_lines.
    + unfold builds. rewrite List.filter_app, builds_of_output.
      apply app_nil_r.
Qed.

Lemma usage_lists_the_scenarios_witness :
  (exists sc, "clean" = scenario_name sc
              /\ script no_buildx ["clean"] (init ∅)
                 = (banner ;; errexit (scenario_fun no_buildx sc)) (init ∅))
  /\ (script no_buildx ["--help"] (init ∅)).1 = Exited 1.
Proof.
  split.
  - apply (proj1 (proj2 (usage_lists_the_scenarios no_buildx))).
    rewrite (proj1 (usage_lists_the_scenarios no_buildx)).
    apply list_elem_of_In. cbn. tauto.
  - apply (proj2 (proj2 (usage_lists_the_scenarios no_buildx))).
    rewrite (proj1 (usage_lists_the_scenarios no_buildx)).
    rewrite list_elem_of_In. cbn. intros H.
    repeat (destruct H as [H|H]; [discriminate H|]). exact H.
Defined.
End ScenarioMore.

(** ** The HTTP service *)

Module HttpMore.
Import Http HttpProps.

(** A property every turn of the event loop keeps holds after any
    sequence of turns. *)
Lemma steps_inv (rt : Runtime) (P : server -> Prop) (s0 : server) :
  P s0 -> (forall i s, P s -> P (step rt i s)) ->
  forall inputs, P (steps rt inputs s0).
Proof.
  intros H0 Hstep inputs. induction inputs as [|i inputs IH] using rev_ind.
  - exact H0.
  - rewrite steps_snoc. by apply Hstep.
Qed.

Lemma steps_app (rt : Runtime) (a b : list input) (s : server) :
  steps rt (a ++ b) s = steps rt b (steps rt a s).
Proof. unfold steps. apply foldl_app. Qed.

Lemma serve_as_steps (rt : Runtime) (inputs : list input) :
  serve rt inputs
  = steps rt (inputs ++ replicate (length (timers (steps rt inputs (boot rt))))
                                  TimerFires) (boot rt).
Proof. unfold serve. by rewrite drain_eq, steps_app. Qed.

Lemma arrived_app (a b : list input) : arrived (a ++ b) = arrived a ++ arrived b.
Proof. apply omap_app. Qed.

Lemma arrived_timer_fires (n : nat) : arrived (replicate n TimerFires) = [].
Proof. induction n as [|n IH]; [done|exact IH]. Qed.

Lemma drain_no_timers_serve (rt : Runtime) (inputs : list input) :
  timer_request <$> timers (serve rt inputs) = [].
Proof. unfold serve. by rewrite drain_no_timers. Qed.

(** X14: only an unknown task is answered with a status other than 200:
    every response the service sends has status 400 when its request is
    /simulate/:task with a task other than cpu, memory, io, and status 200
    in every other case. *)
Theorem status_is_200_or_400 (rt : Runtime) (inputs : list input) :
  Forall (fun p => status p.2 = expected_status p.1) (sent (serve rt inputs)).
Proof.
  pose (good (s : server) :=
          Forall (fun p => status p.2 = expected_status p.1) (sent s)
          /\ Forall (fun t => rroute (timer_request t) = Simulate "io")
                    (timers s)).
  assert (good (serve rt inputs)) as [H _]; [|exact H].
  rewrite serve_as_steps. apply steps_inv.
  { split; apply Forall_nil_2. }
  clear inputs. subst good. cbv beta.
  intros i s [Hsent Htimers]. destruct i as [[id r]|]; cbn [step].
  - unfold handle. cbn [rroute]. destruct r as [| |task|].
    + unfold home, mbind, js_bind, get_config, res_json. cbn [snd].
      split; [|done]. cbn [sent]. apply Forall_app. split; [done|].
      by apply Forall_singleton.
    + unfold info, mbind, js_bind, get_config, res_json, process_uptime,
        process_memoryUsage, observe. cbn [snd config tick sent timers].
      split; [|done]. apply Forall_app. split; [done|].
      by apply Forall_singleton.
    + destruct (decide (task = "cpu")) as [->|Hcpu];
        [|destruct (decide (task = "memory")) as [->|Hmem];
          [|destruct (decide (task = "io")) as [->|Hio]]].
      * rewrite simulate_cpu. split; [|done]. cbn [sent].
        apply Forall_app. split; [done|]. apply Forall_singleton.
        unfold expected_status, known_task. cbn.
        by rewrite decide_True by tauto.
      * rewrite simulate_memory. split; [|done]. cbn [sent].
        apply Forall_app. split; [done|]. apply Forall_singleton.
        unfold expected_status, known_task. cbn.
        by rewrite decide_True by tauto.
      * rewrite simulate_io. split; [done|]. cbn [timers].
        apply Forall_app. split; [done|]. by apply Forall_singleton.
      * rewrite simulate_unknown by done. split; [|done]. cbn [sent].
        apply Forall_app. split; [done|]. apply Forall_singleton.
        unfold expected_status, known_task. cbn.
        by rewrite decide_False by tauto.
    + unfold health, mbind, js_bind, res_json, new_Date_toISOString,
        process_uptime, observe. cbn [snd config tick sent timers].
      split; [|done]. apply Forall_app. split; [done|].
      by apply Forall_singleton.
  - destruct (timers s) as [|[rq task start] rest] eqn:Ht.
    { split; [done|]. rewrite Ht. apply Forall_nil_2. }
    rewrite fire_eq. cbn [config tick sent timers].
    apply Forall_cons in Htimers as [Hio Hrest]. cbn in Hio.
    split; [|done]. apply Forall_app. split; [done|]. apply Forall_singleton.
    unfold expected_status, known_task. cbn [fst snd]. rewrite Hio.
    by rewrite decide_True by tauto.
Qed.

(** X15: responses come in the order of arrival within each kind of
    request.  The io requests are answered, once the timers have fired, in
    the order they arrived; every other request is answered within its own
    turn, so at any moment the responses to those are in arrival order and
    none is outstanding. *)
Theorem responses_in_arrival_order (rt : Runtime) (inputs : list input) :
  List.filter is_io (answered_requests (serve rt inputs))
  = List.filter is_io (arrived inputs)
  /\ List.filter (fun rq => negb (is_io rq))
                 (answered_requests (steps rt inputs (boot rt)))
     = List.filter (fun rq => negb (is_io rq)) (arrived inputs).
Proof.
  pose (P (inputs : list input) (s : server) :=
          List.filter is_io (answered_requests s)
            ++ (timer_request <$> timers s)
          = List.filter is_io (arrived inputs)
          /\ Forall (fun t => is_io (timer_request t) = true) (timers s)
          /\ List.filter (fun rq => negb (is_io rq)) (answered_requests s)
             = List.filter (fun rq => negb (is_io rq)) (arrived inputs)).
  assert (forall inputs, P inputs (steps rt inputs (boot rt))) as Hinv.
  { apply steps_ind; [by repeat split|].
    intros ins i s s' (Hio & Htm & Hnow) Hturn.
    unfold P, answered_requests in *.
    rewrite arrived_app, !List.filter_app, <- Hio, <- Hnow.
    destruct Hturn as [rq r t' Hle Hnio Hj Hc Hcfg Hsim
                      | rq Hdef | rq task start rest Htim | Htim];
      cbn [sent timers arrived omap].
    - assert (is_io rq = false) as Hf
        by (unfold is_io; by rewrite bool_decide_eq_false_2).
      rewrite fmap_app, !List.filter_app. cbn. rewrite Hf. cbn.
      rewrite ?app_nil_r, <- ?app_assoc. by repeat split.
    - assert (is_io rq = true) as Ht
        by (unfold is_io; by rewrite bool_decide_eq_true_2).
      rewrite fmap_app. cbn. rewrite Ht. cbn.
      rewrite ?app_nil_r, <- ?app_assoc. repeat split; try done.
      apply Forall_app. split; [done|]. by apply Forall_singleton.
    - rewrite Htim in *. apply Forall_cons in Htm as [Ht Hrest]. cbn in Ht.
      rewrite fmap_app, !List.filter_app. cbn. rewrite Ht. cbn.
      rewrite ?app_nil_r, <- ?app_assoc. by repeat split.
    - rewrite ?app_nil_r. by repeat split. }
  split; [|apply Hinv].
  destruct (Hinv (inputs ++ replicate
               (length (timers (steps rt inputs (boot rt)))) TimerFires))
    as (Hio & _ & _).
  rewrite <- serve_as_steps in Hio.
  rewrite drain_no_timers_serve in Hio.
  rewrite arrived_app, arrived_timer_fires in Hio.
  by rewrite !app_nil_r in Hio.
Qed.


(** X17: an empty environment variable counts as unset: setting any
    variable to the empty string gives the very config that leaving it out
    gives.  With every variable unset or empty the config is the default
    one: port 3000, environment development, commit unknown, metrics and
    debug mode off, caching on. *)
Theorem empty_variable_is_unset (rt : Runtime) (t : N) :
  (forall k e,
     load_config (with_env rt (<[k := ""]> e)) t
     = load_config (with_env rt (delete k e)) t)
  /\ ((forall k, env rt !! k = None \/ env rt !! k = Some "") ->
      load_config rt t = default_config (iso_string rt t)).
Proof.
  split.
  - intros k e.
    assert (forall key d, env_or (with_env rt (<[k := ""]> e)) key d
                          = env_or (with_env rt (delete k e)) key d) as Hor.
    { intros key d. unfold env_or, with_env. cbn [env].
      destruct (decide (k = key)) as [->|Hne].
      - rewrite lookup_insert_eq, lookup_delete_eq. by rewrite decide_True.
      - by rewrite lookup_insert_ne, lookup_delete_ne. }
    assert (forall key v, v <> "" ->
              env_is (with_env rt (<[k := ""]> e)) key v
              = env_is (with_env rt (delete k e)) key v) as His.
    { intros key v Hv. unfold env_is, with_env. cbn [env].
      destruct (decide (k = key)) as [->|Hne].
      - rewrite lookup_insert_eq, lookup_delete_eq.
        rewrite !bool_decide_eq_false_2; [done|done|]. by intros [= <-].
      - by rewrite lookup_insert_ne, lookup_delete_ne. }
    unfold load_config. rewrite !Hor, !His by done. reflexivity.
  - intros Hall.
    assert (forall key d, env_or rt key d = d) as Hor.
    { intros key d. unfold env_or.
      destruct (Hall key) as [-> | ->]; [done|]. by rewrite decide_True. }
    assert (forall key v, v <> "" -> env_is rt key v = false) as His.
    { intros key v Hv. unfold env_is. apply bool_decide_eq_false_2.
      destruct (Hall key) as [-> | ->]; [done|]. by intros [= <-]. }
    unfold load_config, default_config. rewrite !Hor, !His by done.
    reflexivity.
Qed.

Lemma empty_variable_is_unset_witness :
  load_config steady 0 = default_config (iso_string steady 0).
Proof.
  apply (proj2 (empty_variable_is_unset steady 0)).
  intros k. left. apply lookup_empty.
Defined.






End HttpMore.
